(** * auto-notes: a shallow embedding of [auto-notes.py]

    The first part embeds the program: the Python string primitives it
    relies on, the page-selection parser [parse_pages], the header
    rewriting [format_annotation_headers], the slug derivation [_slug],
    the page geometry of [annotate_pdf], the renderer adapter
    [render_md_to_pdf], the retried generator call [call_gpt5] and the
    per-page loop of [annotate_pdf], run over an explicit world (cache
    files, service oracle, event trace). The second part states and
    proves the properties of these definitions.

    Text is a list of 8-bit characters (code points below 256); Python
    floats are modelled by exact rationals. The interpreter is CPython
    on a 64-bit machine with its default limits; the memory of the
    machine is a parameter, [mem]. *)

From stdpp Require Import gmap strings list sorting.
From Stdlib Require Import Ascii DecimalString QArith Qround Lqa.

Close Scope Q_scope.
Open Scope Z_scope.

(** ** Text and the Python string primitives *)

Abbreviation text := (list ascii).

Definition txt (s : string) : text := String.list_ascii_of_string s.

Definition code (c : ascii) : N := N_of_ascii c.

Definition chr_eqb (a b : ascii) : bool := Ascii.eqb a b.

(** [str.isspace] on the code points below 256. *)
Definition is_space (c : ascii) : bool :=
  let n := code c in
  ((9 <=? n) && (n <=? 13) || (28 <=? n) && (n <=? 32)
   || (n =? 133) || (n =? 160))%N.

(** The decimal digits [0-9]. *)
Definition is_digit (c : ascii) : bool :=
  let n := code c in ((48 <=? n) && (n <=? 57))%N.

Definition digit_val (c : ascii) : Z := Z.of_N (code c) - 48.

(** The blanks [int()] skips around a literal: ASCII white space, and
    the other white space, which it first turns into a space. The
    separators 28-31, white space for [str.strip], are not among them. *)
Definition is_int_space (c : ascii) : bool :=
  let n := code c in
  ((9 <=? n) && (n <=? 13) || (n =? 32) || (n =? 133) || (n =? 160))%N.

Fixpoint lstrip_by (blank : ascii -> bool) (s : text) : text :=
  match s with
  | [] => []
  | c :: s' => if blank c then lstrip_by blank s' else s
  end.

Definition strip_by (blank : ascii -> bool) (s : text) : text :=
  rev (lstrip_by blank (rev (lstrip_by blank s))).

(** [s.strip()] *)
Definition py_strip (s : text) : text := strip_by is_space s.

(** [s.split(sep)] for a one-character separator: never empty. *)
Fixpoint py_split (sep : ascii) (s : text) : list text :=
  match s with
  | [] => [[]]
  | c :: s' =>
      if chr_eqb c sep then [] :: py_split sep s'
      else match py_split sep s' with
           | [] => [[c]]
           | w :: ws => (c :: w) :: ws
           end
  end.

(** [sep in s] *)
Definition py_contains (sep : ascii) (s : text) : bool :=
  existsb (chr_eqb sep) s.

(** [s.split(sep, 1)] when [sep in s]: the text before the first
    separator and the text after it. *)
Fixpoint py_split1 (sep : ascii) (s : text) : text * text :=
  match s with
  | [] => ([], [])
  | c :: s' =>
      if chr_eqb c sep then ([], s')
      else let '(a, b) := py_split1 sep s' in (c :: a, b)
  end.

(** The digits of an [int()] literal, most significant first; a single
    underscore may separate two digits. [seen] tells whether the
    previous character was a digit. *)
Fixpoint int_digits (acc : Z) (seen : bool) (s : text) : option Z :=
  match s with
  | [] => if seen then Some acc else None
  | c :: s' =>
      if is_digit c then int_digits (10 * acc + digit_val c) true s'
      else if chr_eqb c "_" && seen then int_digits acc false s'
      else None
  end.

(** [sys.int_info.default_max_str_digits]: [int()] refuses a literal
    of more digits. *)
Definition int_max_str_digits : Z := 4300.

(** The number of digits of a text. *)
Definition digit_count (s : text) : Z :=
  Z.of_nat (length (List.filter is_digit s)).

(** [int(s)] in base 10: surrounding blanks, an optional sign, then
    digits, no more than [int_max_str_digits] of them (leading zeros
    count, underscores do not). [None] stands for [ValueError], which
    is what every refusal raises. *)
Definition py_int (s : text) : option Z :=
  match strip_by is_int_space s with
  | c :: r =>
      if int_max_str_digits <? digit_count (c :: r) then None
      else if chr_eqb c "-" then Z.opp <$> int_digits 0 false r
      else if chr_eqb c "+" then int_digits 0 false r
      else int_digits 0 false (c :: r)
  | [] => None
  end.

(** [range(a, b)] *)
Definition py_range (a b : Z) : list Z :=
  map (fun i => a + Z.of_nat i) (seq 0 (Z.to_nat (b - a))).

(** [sorted(set(l))] *)
Definition py_set (l : list Z) : list Z := remove_dups l.
Definition py_sorted (l : list Z) : list Z := merge_sort Z.le l.

(** ** Exceptions and results *)

Inductive exn : Type :=
  | ValueError
  | IndexError
  | OverflowError
  | MemoryError
  | FileDataError               (* PyMuPDF: the bytes are no document *)
  | RuntimeError (msg : string)
  | RetryError
  | ServiceError (tag : nat).

Inductive result (A : Type) : Type :=
  | Ok (a : A)
  | Raise (e : exn).
Arguments Ok {A} a.
Arguments Raise {A} e.

(** ** parse_pages *)

(** [sys.maxsize] on a 64-bit build: no sequence is longer. *)
Definition sys_maxsize : Z := 2 ^ 63 - 1.

(** Whether a list of [n] items can be held. A list of up to
    [min_list_room] items always can; a longer one can when the machine
    at hand has the room, [mem] being the number of items it can hold;
    none is longer than [sys_maxsize]. *)
Definition min_list_room : Z := 65536.

Definition list_fits (mem n : Z) : bool :=
  (n <=? min_list_room) || (n <=? mem) && (n <=? sys_maxsize).

(** [sel.append(n)] *)
Definition list_append (mem : Z) (sel : list Z) (n : Z) : result (list Z) :=
  if list_fits mem (Z.of_nat (length sel) + 1) then Ok (sel ++ [n])
  else Raise MemoryError.

(** [sel.extend(range(a, b))]: the length of the range is asked for
    first, which raises [OverflowError] beyond [sys.maxsize]; then room
    is made for all its items, before any filtering. *)
Definition list_extend_range (mem : Z) (sel : list Z) (a b : Z)
  : result (list Z) :=
  let n := Z.max 0 (b - a) in
  if sys_maxsize <? n then Raise OverflowError
  else if list_fits mem (Z.of_nat (length sel) + n)
       then Ok (sel ++ py_range a b)
       else Raise MemoryError.

(** The body of the [for chunk in spec.split(",")] loop: what one
    chunk does to [sel]. *)
Definition parse_chunk (mem : Z) (chunk : text) (sel : list Z)
  : result (list Z) :=
  let chunk := py_strip chunk in
  if py_contains "-" chunk then
    let '(a, b) := py_split1 "-" chunk in
    match py_int a with
    | None => Raise ValueError
    | Some a' =>
        match py_int b with
        | None => Raise ValueError
        | Some b' => list_extend_range mem sel a' (b' + 1)
        end
    end
  else
    match py_int chunk with
    | None => Raise ValueError
    | Some n => list_append mem sel n
    end.

(** The loop, threading [sel]; the first exception leaves it. *)
Fixpoint parse_chunks (mem : Z) (chunks : list text) (sel : list Z)
  : result (list Z) :=
  match chunks with
  | [] => Ok sel
  | chunk :: rest =>
      match parse_chunk mem chunk sel with
      | Raise e => Raise e
      | Ok sel' => parse_chunks mem rest sel'
      end
  end.

Definition in_doc (total p : Z) : bool := (1 <=? p) && (p <=? total).

(** The filtered list, the set and the sorted list are no longer than
    [sel], which was held. *)
Definition parse_pages (mem : Z) (spec : option text) (total : Z)
  : result (option (list Z)) :=
  match spec with
  | None | Some [] => Ok None
  | Some spec =>
      match parse_chunks mem (py_split "," spec) [] with
      | Raise e => Raise e
      | Ok sel =>
          let sel := filter (fun p => in_doc total p = true) sel in
          match py_sorted (py_set sel) with
          | [] => Ok None
          | l => Ok (Some l)
          end
      end
  end.

(** *** Page selections as the specification words them *)

(** A number: a non-empty run of decimal digits, possibly surrounded by
    blanks. *)
Definition is_number (s : text) : bool :=
  match strip_by is_int_space s with
  | [] => false
  | ds => forallb is_digit ds
  end.

Definition number_value (s : text) : Z :=
  fold_left (fun acc c => 10 * acc + digit_val c) (strip_by is_int_space s) 0.

(** A token is a single number or a range [a-b] of two numbers. *)
Definition wellformed_token (chunk : text) : bool :=
  let chunk := py_strip chunk in
  if py_contains "-" chunk then
    let '(a, b) := py_split1 "-" chunk in is_number a && is_number b
  else is_number chunk.


(** A valid token is well formed and, when a range, not reversed. *)
Definition valid_token (chunk : text) : bool :=
  wellformed_token chunk &&
  (let chunk := py_strip chunk in
   if py_contains "-" chunk then
     let '(a, b) := py_split1 "-" chunk in
     number_value a <=? number_value b
   else true).


Definition valid_spec (spec : text) : bool :=
  forallb valid_token (py_split "," spec).





(** *** What the parser can read, and what it can hold *)














(** ** format_annotation_headers *)

Definition newline : ascii := ascii_of_N 10.

(** [s.startswith(h)] *)
Fixpoint starts_with (h s : text) : bool :=
  match h, s with
  | [], _ => true
  | _ :: _, [] => false
  | a :: h', c :: s' => chr_eqb a c && starts_with h' s'
  end.

Fixpoint lstrip_char (ch : ascii) (s : text) : text :=
  match s with
  | [] => []
  | c :: s' => if chr_eqb c ch then lstrip_char ch s' else s
  end.

(** [s.rstrip(ch)] for a single character [ch]. *)
Fixpoint rstrip_char (ch : ascii) (s : text) : text :=
  match s with
  | [] => []
  | c :: s' =>
      match rstrip_char ch s' with
      | [] => if chr_eqb c ch then [] else [c]
      | r => c :: r
      end
  end.

(** [s.strip(ch)] *)
Definition strip_char (ch : ascii) (s : text) : text :=
  rstrip_char ch (lstrip_char ch s).

(** [re.sub(rf"(?m)^{re.escape(h)}", repl, s)] for a non-empty literal
    [h]: a left-to-right scan; [bol] tells whether the position is the
    start of the text or follows a newline. On a match the replacement
    is emitted and the scan resumes after the matched text; otherwise
    the character is copied. [fuel] bounds the number of steps, the
    length of the text suffices. *)
Fixpoint sub_line_start (fuel : nat) (h repl : text) (bol : bool) (s : text)
  : text :=
  match fuel, s with
  | _, [] => []
  | O, _ => s
  | S fuel', c :: s' =>
      if bol && starts_with h s
      then repl ++ sub_line_start fuel' h repl
                     (chr_eqb (List.last h newline) newline)
                     (drop (length h) s)
      else c :: sub_line_start fuel' h repl (chr_eqb c newline) s'
  end.

Definition re_sub_line_start (h repl s : text) : text :=
  sub_line_start (length s) h repl true s.

Definition headers : list text :=
  [ txt "Title:"; txt "Explanation:"; txt "Equation breakdown:";
    txt "Intuition:"; txt "Mental checkpoint:"; txt "Connections:" ].

(** [f"**{label}:**"], the bold form without its line break. *)
Definition bold_form (h : text) : text :=
  let label := rstrip_char ":" h in
  txt "**" ++ label ++ txt ":**".

(** [f"**{label}:**\n"] *)
Definition replacement (h : text) : text := bold_form h ++ [newline].

(** One turn of the [for h in headers] loop. *)
Definition format_header (body h : text) : text :=
  re_sub_line_start h (replacement h) body.

Definition format_annotation_headers (body : text) : text :=
  fold_left format_header headers body.

(** *** Header rewriting as the specification words it *)

Definition lines (s : text) : list text := py_split newline s.

(** ["\n".join(ls)] *)
Fixpoint join_lines (ls : list text) : text :=
  match ls with
  | [] => []
  | [l] => l
  | l :: ls' => l ++ newline :: join_lines ls'
  end.

(** The recognized header a line begins with, if any. *)
Definition line_header (l : text) : option text :=
  List.find (fun h => starts_with h l) headers.

(** A line beginning with a recognized header has that header put in
    bold on a line of its own; any other line is kept. *)
Definition rewrite_line (l : text) : list text :=
  match line_header l with
  | Some h => [bold_form h; drop (length h) l]
  | None => [l]
  end.

(** Rewriting exactly the headers found at the line starts of [s]. *)
Definition rewrite_line_starts (s : text) : text :=
  join_lines (flat_map rewrite_line (lines s)).

(** One header only: the lines beginning with [h]. *)
Definition rewrite_line_for (h l : text) : list text :=
  if starts_with h l then [bold_form h; drop (length h) l] else [l].

(** No recognized header at a line start is directly followed by a
    recognized header. *)
Definition no_stacked_headers (s : text) : bool :=
  forallb (fun l =>
             match line_header l with
             | Some h =>
                 match line_header (drop (length h) l) with
                 | Some _ => false
                 | None => true
                 end
             | None => true
             end) (lines s).

(** No line begins with a recognized header. *)
Definition no_line_header (s : text) : bool :=
  forallb (fun l => match line_header l with Some _ => false | None => true end)
          (lines s).

(** ** _slug *)

(** [c.lower()] on the code points below 256. *)
Definition lower_char (c : ascii) : ascii :=
  let n := code c in
  if ((65 <=? n) && (n <=? 90)
      || (192 <=? n) && (n <=? 222) && negb (n =? 215))%N
  then ascii_of_N (n + 32) else c.

Definition py_lower (s : text) : text := map lower_char s.

(** The class [[a-z0-9]]. *)
Definition is_slug_char (c : ascii) : bool :=
  let n := code c in
  ((97 <=? n) && (n <=? 122) || (48 <=? n) && (n <=? 57))%N.

(** [re.sub(r'[^a-z0-9]+', '-', s)]: each maximal run of characters
    outside the class becomes one hyphen. [in_run] tells whether the
    previous character belonged to such a run. *)
Fixpoint sub_runs (in_run : bool) (s : text) : text :=
  match s with
  | [] => []
  | c :: s' =>
      if is_slug_char c then c :: sub_runs false s'
      else if in_run then sub_runs true s'
      else "-"%char :: sub_runs true s'
  end.

Definition _slug (s : text) : text :=
  strip_char "-" (sub_runs false (py_lower s)).

(** Texts of class characters and single hyphens; [after_hyphen] tells
    whether a hyphen may not come next. *)
Fixpoint slug_shaped (after_hyphen : bool) (s : text) : bool :=
  match s with
  | [] => true
  | c :: s' =>
      if is_slug_char c then slug_shaped false s'
      else chr_eqb c "-" && negb after_hyphen && slug_shaped true s'
  end.

(** Texts without a line break. *)
Definition no_nl (s : text) : bool :=
  forallb (fun c => negb (chr_eqb c newline)) s.

(** One header's turn, line by line. *)
Definition pass_lines (h : text) (ls : list text) : list text :=
  flat_map (rewrite_line_for h) ls.

(** The lines a scan started with [bol] produces. *)
Definition scan_lines (h : text) (bol : bool) (ls : list text) : list text :=
  match ls with
  | [] => []
  | l :: ls' => (if bol then rewrite_line_for h l else [l]) ++ pass_lines h ls'
  end.

(** A usable header: not empty, on one line, not starting with the
    emphasis mark. *)
Definition plain_header (h : text) : bool :=
  match h with
  | c :: _ => negb (chr_eqb c "*") && no_nl h
  | [] => false
  end.

(** The turns of the loop for the headers [hs], line by line. *)
Definition passes (hs : list text) (ls : list text) : list text :=
  fold_left (fun ls h => pass_lines h ls) hs ls.

(** The first header of [hs] a line begins with. *)
Definition first_header (hs : list text) (l : text) : option text :=
  List.find (fun h => starts_with h l) hs.

(** The per-line reading of [no_stacked_headers]. *)
Definition unstacked (l : text) : Prop :=
  forall h, line_header l = Some h -> line_header (drop (length h) l) = None.

(** ** More Python primitives used by the pipeline *)

Abbreviation bytes := (list ascii).

(** [str(n)] for an integer. *)
Definition py_str_int (z : Z) : text :=
  txt (NilZero.string_of_int (Z.to_int z)).

(** [int(x)] for a float: truncation toward zero. *)
Definition py_int_of_float (x : Q) : Z := Z.quot (Qnum x) (Z.pos (Qden x)).

(** [f"{n:03d}"]: sign-aware zero padding to width 3. *)
Definition py_format_03d (z : Z) : text :=
  let ds := py_str_int (Z.abs z) in
  let sign := if z <? 0 then txt "-" else [] in
  sign ++ replicate (3 - length sign - length ds) "0"%char ++ ds.

(** [s.replace(a, b)] for single characters. *)
Definition py_replace_char (a b : ascii) (s : text) : text :=
  map (fun c => if chr_eqb c a then b else c) s.

Definition nbsp : ascii := ascii_of_N 160.

(** [s[:n]] *)
Definition py_take (n : nat) (s : text) : text := take n s.

(** The line boundaries of [str.splitlines] below code point 256. *)
Definition is_line_boundary (c : ascii) : bool :=
  let n := code c in
  ((10 <=? n) && (n <=? 13) || (28 <=? n) && (n <=? 30) || (n =? 133))%N.

(** [s.splitlines()]: [cur] is the current line, reversed; CR LF counts
    as one boundary and a final boundary opens no empty line. *)
Fixpoint splitlines_from (cur : text) (s : text) : list text :=
  match s with
  | [] => match cur with [] => [] | _ => [rev cur] end
  | c :: s' =>
      if is_line_boundary c then
        match s' with
        | d :: s'' =>
            if chr_eqb c (ascii_of_N 13) && chr_eqb d newline
            then rev cur :: splitlines_from [] s''
            else rev cur :: splitlines_from [] s'
        | [] => [rev cur]
        end
      else splitlines_from (c :: cur) s'
  end.

Definition py_splitlines (s : text) : list text := splitlines_from [] s.

(** Reading a file in text mode: universal newlines turn CR LF and CR
    into LF. *)
Fixpoint universal_newlines (s : text) : text :=
  match s with
  | [] => []
  | c :: s' =>
      if chr_eqb c (ascii_of_N 13) then
        match s' with
        | d :: s'' =>
            if chr_eqb d newline then newline :: universal_newlines s''
            else newline :: universal_newlines s'
        | [] => [newline]
        end
      else c :: universal_newlines s'
  end.

(** [s.encode("utf-8")] on code points below 256. *)
Definition encode_utf8 (s : text) : bytes :=
  flat_map (fun c =>
              let n := code c in
              if (n <? 128)%N then [c]
              else [ascii_of_N (192 + N.shiftr n 6);
                    ascii_of_N (128 + N.land n 63)]) s.

(** *** Paths ([pathlib.PurePosixPath]) *)

(** A path: its root ([""], ["/"] or ["//"]) and its components. *)
Record PurePath : Type := mkPath {
  path_root : text;
  path_parts : list text
}.

(** The components a text holds: the texts between its slashes, the
    empty ones and ["."] left out. *)
Definition components (s : text) : list text :=
  List.filter (fun c => negb (bool_decide (c = []) || bool_decide (c = txt ".")))
              (py_split "/" s).

(** The root a text begins with: a slash; two slashes are kept, three
    or more are one. *)
Definition root_of (s : text) : text :=
  if starts_with (txt "///") s then txt "/"
  else if starts_with (txt "//") s then txt "//"
  else if starts_with (txt "/") s then txt "/"
  else [].

(** [Path(s)] *)
Definition py_path (s : text) : PurePath := mkPath (root_of s) (components s).

(** [p / s]: a rooted [s] replaces [p]. *)
Definition path_join (p : PurePath) (s : text) : PurePath :=
  match root_of s with
  | [] => mkPath (path_root p) (path_parts p ++ components s)
  | _ => py_path s
  end.

(** ["/".join(ps)] *)
Fixpoint join_parts (ps : list text) : text :=
  match ps with
  | [] => []
  | [c] => c
  | c :: ps' => c ++ "/"%char :: join_parts ps'
  end.

(** [str(p)] *)
Definition path_str (p : PurePath) : text :=
  match path_root p, path_parts p with
  | [], [] => txt "."
  | r, ps => r ++ join_parts ps
  end.

(** What [str(p / name)] puts before [name] when [name] is a single
    component. *)
Definition dir_prefix (p : PurePath) : text :=
  path_root p ++ match path_parts p with
                 | [] => []
                 | ps => join_parts ps ++ ["/"%char]
                 end.

(** The position of the last occurrence of [ch], if any ([s.rfind]). *)
Fixpoint rfind_from (ch : ascii) (i : nat) (s : text) : option nat :=
  match s with
  | [] => None
  | c :: s' =>
      match rfind_from ch (S i) s' with
      | Some j => Some j
      | None => if chr_eqb c ch then Some i else None
      end
  end.

(** [Path(p).stem]: the last component without its suffix. *)
Definition path_stem (p : text) : text :=
  let name := List.last (path_parts (py_path p)) [] in
  match rfind_from "." 0 name with
  | Some i =>
      if (0 <? i)%nat && (i <? length name - 1)%nat then take i name else name
  | None => name
  end.

(** ** Pages and rectangles *)

Record Rect : Type := mkRect { x0 : Q; y0 : Q; x1 : Q; y1 : Q }.

Definition Qmax0 (q : Q) : Q := if Qle_bool 0 q then q else 0%Q.

(** [fitz.Rect.width] and [.height]: never negative. *)
Definition rect_width (r : Rect) : Q := Qmax0 (x1 r - x0 r)%Q.
Definition rect_height (r : Rect) : Q := Qmax0 (y1 r - y0 r)%Q.

(** [fitz.Rect.is_empty] *)
Definition rect_is_empty (r : Rect) : bool :=
  Qle_bool (x1 r) (x0 r) || Qle_bool (y1 r) (y0 r).

(** A source page: the size of [page.rect], the text of
    [page.get_text("text", ...)] and, for each block of
    [page.get_text("blocks")], its fifth field when it is a string. *)
Record SourcePage : Type := mkPage {
  page_width : Q;
  page_height : Q;
  page_text : text;
  page_blocks : list (option text)
}.

(** ["\n".join(...)] *)
Definition py_join_nl (ls : list text) : text := join_lines ls.

Definition extract_text (page : SourcePage) : text :=
  let t := py_strip (page_text page) in
  match t with
  | [] => py_strip (py_join_nl (omap id (page_blocks page)))
  | _ => t
  end.

(** *** The geometry of an output page (annotate_pdf, lines 144-155) *)

Record Layout : Type := mkLayout {
  new_w : Q;
  new_h : Q;
  orig_rect : Rect;
  notes_rect : Rect
}.

(** The product and the sum are exact here; the program rounds each to
    the nearest binary64 number, so its coordinates can differ from
    these in the last place. *)
Definition layout (side : text) (margin_ratio : Q) (width height : Q)
  : Layout :=
  let note_w := (width * margin_ratio)%Q in
  let new_w := (width + note_w)%Q in
  let new_h := height in
  if bool_decide (side = txt "right") then
    {| new_w := new_w; new_h := new_h;
       orig_rect := mkRect 0 0 width height;
       notes_rect := mkRect width 0 new_w new_h |}
  else
    {| new_w := new_w; new_h := new_h;
       orig_rect := mkRect note_w 0 new_w height;
       notes_rect := mkRect 0 0 note_w new_h |}.

(** The rectangle of the new page. *)
Definition page_rect (l : Layout) : Rect := mkRect 0 0 (new_w l) (new_h l).

(** Points of a rectangle, and of its interior. *)
Definition in_rect (r : Rect) (x y : Q) : Prop :=
  (x0 r <= x /\ x <= x1 r /\ y0 r <= y /\ y <= y1 r)%Q.

Definition in_interior (r : Rect) (x y : Q) : Prop :=
  (x0 r < x /\ x < x1 r /\ y0 r < y /\ y < y1 r)%Q.

(** ** The world of a run *)

(** What the run does to its surroundings, in order. *)
Inductive event : Type :=
  | EvService (prompt : text) (max_tokens : Z)  (* OA.responses.create *)
  | EvSleep (seconds : Q)                       (* the wait between attempts *)
  | EvReadText (path : text)                    (* Path.read_text *)
  | EvWriteText (path : text) (content : text)  (* Path.write_text *)
  | EvWriteBytes (path : text) (content : bytes)
  | EvNode (script : text) (stdin : bytes) (env : gmap text text)
  | EvStderr (msg : bytes)
  | EvNewPage (width height : Q)                (* dst.new_page *)
  | EvShowSource (target : Rect) (pno : Z)      (* the original slide *)
  | EvShowNote (target : Rect) (pdf : bytes)    (* keep_proportion=False *)
  | EvPrint (msg : text)
  | EvSave (path : text).

Record World : Type := mkWorld {
  files : gmap text text;   (* the files under the cache root *)
  calls : nat;              (* requests sent to the service so far *)
  trace : list event        (* oldest first *)
}.

(** What the service answers: an [output_text] (possibly [None]) or an
    exception. *)
Inductive response : Type :=
  | Resp (output_text : option text)
  | Fails (e : exn).

(** The outcome of a child process. *)
Record Completed : Type := mkCompleted {
  returncode : Z;
  stdout : bytes;
  stderr : bytes
}.

(** What PyMuPDF makes of the bytes of a fragment: no document at all,
    a document whose first page has no content, or one it can draw. *)
Inductive fragment : Type :=
  | NoDocument
  | BlankPage
  | Drawable.

(** The collaborators the program does not contain: the remote service
    (its answer to the [n]-th request), the random draw of the backoff
    after the [n]-th request, the Node renderer, the process environment,
    whether [node] is on the path, and PyMuPDF's reading of a
    fragment. *)
Record Collaborators : Type := mkCollaborators {
  service : nat -> text -> Z -> response;
  jitter : nat -> Q;
  run_node : text -> bytes -> gmap text text -> Completed;
  environ : gmap text text;
  which_node : bool;
  open_fragment : bytes -> fragment
}.

(** Computations over the world that may raise. *)
Definition M (A : Type) : Type := World -> result A * World.

Definition ret {A} (a : A) : M A := fun w => (Ok a, w).
Definition raise {A} (e : exn) : M A := fun w => (Raise e, w).
Definition bind {A B} (m : M A) (k : A -> M B) : M B :=
  fun w => match m w with
           | (Ok a, w') => k a w'
           | (Raise e, w') => (Raise e, w')
           end.

Notation "x <- m ;; k" := (bind m (fun x => k))
  (at level 100, m at level 99, k at level 200, right associativity).
Notation "m ;;; k" := (bind m (fun _ => k))
  (at level 100, k at level 200, right associativity).

Definition emit (e : event) : M unit :=
  fun w => (Ok tt, mkWorld (files w) (calls w) (trace w ++ [e])).

Definition exists_file (p : text) : M bool :=
  fun w => (Ok (bool_decide (is_Some (files w !! p))), w).

(** [p.read_text(encoding="utf-8")] *)
Definition read_text (p : text) : M text :=
  fun w => match files w !! p with
           | Some s =>
               (Ok (universal_newlines s),
                mkWorld (files w) (calls w) (trace w ++ [EvReadText p]))
           | None => (Raise (RuntimeError "FileNotFoundError"), w)
           end.

(** [p.write_text(s)] and [p.write_bytes(s)]: the file is replaced.
    The text is kept as written (no translation of line feeds, as on
    POSIX). *)
Definition write_text (p : text) (s : text) : M unit :=
  fun w => (Ok tt, mkWorld (<[p := s]> (files w)) (calls w)
                           (trace w ++ [EvWriteText p s])).

Definition write_bytes (p : text) (s : bytes) : M unit :=
  fun w => (Ok tt, mkWorld (<[p := s]> (files w)) (calls w)
                           (trace w ++ [EvWriteBytes p s])).

(** [for x in l: body(x)] *)
Fixpoint for_each {A} (l : list A) (body : A -> M unit) : M unit :=
  match l with
  | [] => ret tt
  | x :: l' => body x ;;; for_each l' body
  end.

(** ** call_gpt5 and its retry decorator *)

(** [wait_exponential_jitter(initial=1, max=20)]: before the attempt
    after attempt [n], wait [min(1 * 2^(n-1) + j, 20)] seconds, [j]
    drawn from [0, 1]; never negative. *)
Definition wait_exponential_jitter (attempt_number : nat) (j : Q) : Q :=
  let result := (1 * inject_Z (2 ^ Z.of_nat (attempt_number - 1)) + j)%Q in
  Qmax0 (if Qle_bool result 20 then result else 20%Q).

(** [stop_after_attempt(5)] *)
Definition stop_after_attempt (attempt_number : nat) : bool :=
  (5 <=? attempt_number)%nat.

Section Pipeline.

Variable ext : Collaborators.

(** One request to the service. *)
Definition responses_create (prompt : text) (max_tokens : Z) : M response :=
  fun w => (Ok (service ext (calls w) prompt max_tokens),
            mkWorld (files w) (S (calls w))
                    (trace w ++ [EvService prompt max_tokens])).

(** The undecorated body of [call_gpt5]. *)
Definition call_gpt5_once (user_prompt : text) (max_tokens : Z)
  : M (result text) :=
  r <- responses_create user_prompt max_tokens ;;
  match r with
  | Resp output_text => ret (Ok (py_strip (default [] output_text)))
  | Fails e => ret (Raise e)
  end.

(** The retrying loop: every exception is retried until
    [stop_after_attempt] holds, then [RetryError] is raised. [fuel]
    bounds the turns; five suffice. *)
Fixpoint retrying (fuel : nat) (attempt_number : nat)
  (user_prompt : text) (max_tokens : Z) : M text :=
  match fuel with
  | O => raise RetryError
  | S fuel' =>
      r <- call_gpt5_once user_prompt max_tokens ;;
      match r with
      | Ok t => ret t
      | Raise _ =>
          if stop_after_attempt attempt_number then raise RetryError
          else
            (fun w =>
               emit (EvSleep (wait_exponential_jitter attempt_number
                                (jitter ext (calls w)))) w) ;;;
            retrying fuel' (S attempt_number) user_prompt max_tokens
      end
  end.

Definition call_gpt5 (user_prompt : text) (max_tokens : Z) : M text :=
  retrying 5 1 user_prompt max_tokens.

(** ** render_md_to_pdf *)

Definition render_env (notes_rect : Rect) : gmap text text :=
  <[txt "NOTE_HEIGHT" := py_str_int (py_int_of_float (rect_height notes_rect))]>
    (<[txt "NOTE_WIDTH" := py_str_int (py_int_of_float (rect_width notes_rect))]>
       (environ ext)).

Definition render_md_to_pdf (markdown : text) (node_script : text)
  (notes_rect : Rect) : M bytes :=
  let env := render_env notes_rect in
  let stdin := encode_utf8 markdown in
  emit (EvNode node_script stdin env) ;;;
  let p := run_node ext node_script stdin env in
  if negb (returncode p =? 0) then
    emit (EvStderr (stderr p)) ;;;
    raise (RuntimeError "render-note.js failed")
  else ret (stdout p).

(** ** annotate_pdf *)

(** [USER_PROMPT.format(course_name=..., title=..., body=...)] *)
Definition user_prompt (course_name title body : text) : text :=
  txt "Course: " ++ course_name ++ [newline; newline]
  ++ txt "Slide title (if any): " ++ title ++ [newline; newline]
  ++ txt "Raw slide text:" ++ [newline] ++ body ++ [newline; newline]
  ++ txt "Write only the annotation content with the exact section headers above, using $...$ or $$...$$ for math."
  ++ [newline].

Definition build_prompt (course_name : text) (idx : Z) (raw : text) : text :=
  let title :=
    match List.find (fun ln => negb (bool_decide (py_strip ln = [])))
                    (py_splitlines raw) with
    | Some ln => ln
    | None => txt "Slide " ++ py_str_int idx
    end in
  user_prompt (py_take 120 course_name) (py_take 120 title)
              (match raw with [] => txt "(no text detected)" | _ => raw end).

(** [src[i]]: a negative index counts from the end, an index past the
    end raises. The loop only uses [i = idx - 1]. *)
Definition load_page (src : list SourcePage) (i : Z) : M SourcePage :=
  let n := Z.of_nat (length src) in
  if (n <=? i) || (n =? 0) then raise IndexError
  else match src !! Z.to_nat (i mod n) with
       | Some p => ret p
       | None => raise IndexError
       end.

Definition cache_dir (cache_root course_name input_pdf : text) : PurePath :=
  path_join (py_path cache_root)
            (_slug course_name ++ txt "/" ++ path_stem input_pdf).

Definition slide_dir (cache_root course_name input_pdf : text) (idx : Z)
  : PurePath :=
  path_join (cache_dir cache_root course_name input_pdf)
            (txt "slide_" ++ py_format_03d idx).

(** The two records of a page, as the names of their files. *)
Definition md_path (cache_root course_name input_pdf : text) (idx : Z) : text :=
  path_str (path_join (slide_dir cache_root course_name input_pdf idx)
                      (txt "note.md")).

Definition pdf_path (cache_root course_name input_pdf : text) (idx : Z) : text :=
  path_str (path_join (slide_dir cache_root course_name input_pdf idx)
                      (txt "note.pdf")).

(** The arguments of [annotate_pdf]; [src] is the opened input, the
    paths are given as texts. *)
Record Args : Type := mkArgs {
  input_pdf : text;
  output_pdf : text;
  src : list SourcePage;
  course_name : text;
  node_script : text;
  side : text;
  margin_ratio : Q;
  pages : option (list Z);
  cache_root : text;
  force : bool
}.

Variable a : Args.

Definition note_path (idx : Z) : text :=
  md_path (cache_root a) (course_name a) (input_pdf a) idx.

Definition fragment_path (idx : Z) : text :=
  pdf_path (cache_root a) (course_name a) (input_pdf a) idx.

(** Lines 167-180: a new annotation from the service, normalised and
    written to the cache. *)
Definition generate_note (page : SourcePage) (idx : Z) : M text :=
  let raw := extract_text page in
  let prompt := build_prompt (course_name a) idx raw in
  note_md <- call_gpt5 prompt 2000 ;;
  let note_md := py_replace_char nbsp " " note_md in
  let note_md := format_annotation_headers note_md in
  write_text (note_path idx) note_md ;;;
  ret note_md.

(** Lines 163-180: the cached text unless forced or absent. *)
Definition note_text (page : SourcePage) (idx : Z) : M text :=
  cached <- exists_file (note_path idx) ;;
  if negb (force a) && cached then read_text (note_path idx)
  else generate_note page idx.

(** Lines 143-155: the new page and the two rectangles. *)
Definition compose_page (page : SourcePage) (idx : Z) : M Rect :=
  let l := layout (side a) (margin_ratio a) (page_width page)
                  (page_height page) in
  emit (EvNewPage (new_w l) (new_h l)) ;;;
  emit (EvShowSource (orig_rect l) (idx - 1)) ;;;
  ret (notes_rect l).

(** Lines 187-191: [fitz.open] raises on bytes that are no document;
    [show_pdf_page] raises [ValueError] on an empty rectangle and on a
    page without content. *)
Definition show_note (notes_rect : Rect) (pdf_bytes : bytes) : M unit :=
  match open_fragment ext pdf_bytes with
  | NoDocument => raise FileDataError
  | BlankPage => raise ValueError
  | Drawable =>
      if rect_is_empty notes_rect then raise ValueError
      else emit (EvShowNote notes_rect pdf_bytes)
  end.

(** Lines 182-193: the fragment is rendered, stored and drawn. *)
Definition place_note (notes_rect : Rect) (note_md : text) (idx : Z)
  : M unit :=
  pdf_bytes <- render_md_to_pdf note_md (node_script a) notes_rect ;;
  write_bytes (fragment_path idx) pdf_bytes ;;;
  show_note notes_rect pdf_bytes ;;;
  emit (EvPrint (txt "[ok] page " ++ py_str_int idx)).

(** The body of the [for idx in pages_iter] loop. *)
Definition annotate_page (idx : Z) : M unit :=
  page <- load_page (src a) (idx - 1) ;;
  notes_rect <- compose_page page idx ;;
  note_md <- note_text page idx ;;
  place_note notes_rect note_md idx.

Definition pages_iter : list Z :=
  match pages a with
  | None => py_range 1 (Z.of_nat (length (src a)) + 1)
  | Some l => l
  end.

(** [dst.save]: PyMuPDF refuses a document without pages; [dst] has
    one page for each index the loop went through. *)
Definition save_output : M unit :=
  match pages_iter with
  | [] => raise ValueError
  | _ => emit (EvSave (output_pdf a))
  end.

(** The whole run; the final message is kept without its symbols
    outside the 8-bit range. *)
Definition annotate_pdf : M unit :=
  if negb (which_node ext)
  then raise (RuntimeError "Node.js not found. Install it first.")
  else
    for_each pages_iter annotate_page ;;;
    save_output ;;;
    emit (EvPrint (txt "Saved " ++ output_pdf a)).

End Pipeline.

Definition empty_world : World := mkWorld ∅ 0 [].

(** The service raises on the [k] requests from the [n]-th on. *)
Definition fails_for (ext : Collaborators) (n k : nat) (prompt : text)
  (max_tokens : Z) : Prop :=
  forall j, (j < k)%nat ->
            exists e, service ext (n + j) prompt max_tokens = Fails e.

(** What [k] failed attempts leave in the trace, from attempt
    [attempt_number] and request [n] on: each request and the wait
    after it. *)
Fixpoint failed_attempts (ext : Collaborators) (n attempt_number k : nat)
  (prompt : text) (max_tokens : Z) : list event :=
  match k with
  | O => []
  | S k' =>
      EvService prompt max_tokens
      :: EvSleep (wait_exponential_jitter attempt_number (jitter ext (S n)))
      :: failed_attempts ext (S n) (S attempt_number) k' prompt max_tokens
  end.

(** The normalisation of a fresh answer (lines 50, 177 and 179). *)
Definition normalise (output_text : option text) : text :=
  format_annotation_headers
    (py_replace_char nbsp " " (py_strip (default [] output_text))).

(** The requests sent to the service and the texts given to the
    renderer, as a trace shows them. *)
Definition is_service (e : event) : bool :=
  match e with EvService _ _ => true | _ => false end.


Definition rendered (tr : list event) : list bytes :=
  omap (fun e => match e with EvNode _ stdin _ => Some stdin | _ => None end) tr.

(** Rounding to the nearest integer, as the specification words the
    sizing parameters. *)
Definition round_nearest (x : Q) : Z := Qfloor (x + (1 # 2))%Q.

(** ** Sample collaborators and arguments *)

(** A service whose first [failures] requests raise and whose later
    requests answer [answer]; a renderer that exits with [code] and
    whose output PyMuPDF can draw. *)
Definition sample_ext (failures : nat) (answer : text) (code : Z)
  : Collaborators :=
  mkCollaborators
    (fun n _ _ =>
       if (n <? failures)%nat then Fails (ServiceError n)
       else Resp (Some answer))
    (fun _ => (1 # 2)%Q)
    (fun _ _ _ => mkCompleted code (txt "%PDF-1.7") (txt "render error"))
    ∅ true (fun _ => Drawable).

(** A two-page deck, notes on the right, equal width. *)
Definition sample_args (force : bool) : Args :=
  mkArgs (txt "in/deck.pdf") (txt "out.pdf")
    [mkPage 100 50 (txt " Slide one ") []; mkPage 100 50 [] []]
    (txt "Reinforcement Learning!") (txt "render/render-note.js")
    (txt "right") 1 None (txt ".annot_cache") force.

(** A world whose cache holds [stored] as the note of page [idx]. *)
Definition cached_world (a : Args) (idx : Z) (stored : text) : World :=
  mkWorld {[ note_path a idx := stored ]} 0 [].


(** What lines 143-155 leave in the trace for a page. *)
Definition setup_events (a : Args) (page : SourcePage) (idx : Z) : list event :=
  let l := layout (side a) (margin_ratio a) (page_width page)
                  (page_height page) in
  [EvNewPage (new_w l) (new_h l); EvShowSource (orig_rect l) (idx - 1)].

Definition page_notes_rect (a : Args) (page : SourcePage) : Rect :=
  notes_rect (layout (side a) (margin_ratio a) (page_width page)
                     (page_height page)).

Definition page_prompt (a : Args) (page : SourcePage) (idx : Z) : text :=
  build_prompt (course_name a) idx (extract_text page).

From Stdlib Require DecimalPos.

(** ** main *)

(** The arguments of [annotate_pdf] with [pages] replaced. *)
Definition with_pages (a : Args) (pages : option (list Z)) : Args :=
  mkArgs (input_pdf a) (output_pdf a) (src a) (course_name a)
         (node_script a) (side a) (margin_ratio a) pages (cache_root a)
         (force a).


(** ** Reading a trace *)

Definition is_new_page (e : event) : bool :=
  match e with EvNewPage _ _ => true | _ => false end.

Definition is_save (e : event) : bool :=
  match e with EvSave _ => true | _ => false end.

Definition is_node (e : event) : bool :=
  match e with EvNode _ _ _ => true | _ => false end.

Definition is_sleep (e : event) : bool :=
  match e with EvSleep _ => true | _ => false end.

(** The events of the retried call: requests and waits. *)
Definition is_attempt_event (e : event) : bool := is_service e || is_sleep e.

Definition count_events (p : event -> bool) (tr : list event) : nat :=
  length (List.filter p tr).

(** The first and the last character are not white space. *)
Definition trimmed (s : text) : Prop :=
  (forall c r, s = c :: r -> is_space c = false)
  /\ (forall r c, s = r ++ [c] -> is_space c = false).

(** The events of lines 163-180: requests, waits, and the reading or
    writing of the note. *)
Definition is_note_event (e : event) : bool :=
  match e with
  | EvService _ _ | EvSleep _ | EvReadText _ | EvWriteText _ _ => true
  | _ => false
  end.

(** A page index of the document. *)
Definition valid_index (a : Args) (idx : Z) : Prop :=
  1 <= idx <= Z.of_nat (length (src a)).

(** The cache holds a note and a fragment for page [idx]. *)
Definition has_records (a : Args) (fs : gmap text text) (idx : Z) : Prop :=
  is_Some (fs !! note_path a idx) /\ is_Some (fs !! fragment_path a idx).

(** The cache holds a note for every page of [l]. *)
Definition all_cached (a : Args) (fs : gmap text text) (l : list Z) : Prop :=
  forall idx, idx ∈ l -> is_Some (fs !! note_path a idx).

(** [p] is no cache record of a page of [l]. *)
Definition outside_records (a : Args) (l : list Z) (p : text) : Prop :=
  forall idx, idx ∈ l -> p <> note_path a idx /\ p <> fragment_path a idx.

(** The arguments of [annotate_pdf] with [force] replaced. *)
Definition with_force (a : Args) (f : bool) : Args :=
  mkArgs (input_pdf a) (output_pdf a) (src a) (course_name a)
         (node_script a) (side a) (margin_ratio a) (pages a) (cache_root a) f.

(** ** Decimal numerals *)

(** The value of a decimal numeral read after [acc]. *)
Fixpoint uint_value (d : Decimal.uint) (acc : Z) : Z :=
  match d with
  | Decimal.Nil => acc
  | Decimal.D0 l => uint_value l (10 * acc + 0)
  | Decimal.D1 l => uint_value l (10 * acc + 1)
  | Decimal.D2 l => uint_value l (10 * acc + 2)
  | Decimal.D3 l => uint_value l (10 * acc + 3)
  | Decimal.D4 l => uint_value l (10 * acc + 4)
  | Decimal.D5 l => uint_value l (10 * acc + 5)
  | Decimal.D6 l => uint_value l (10 * acc + 6)
  | Decimal.D7 l => uint_value l (10 * acc + 7)
  | Decimal.D8 l => uint_value l (10 * acc + 8)
  | Decimal.D9 l => uint_value l (10 * acc + 9)
  end.

(** Texts without a non-breaking space. *)
Definition no_nbsp (s : text) : bool :=
  forallb (fun c => negb (chr_eqb c nbsp)) s.

(** The size of a text given by its lines: every line and its break. *)
Definition lines_size (ls : list text) : nat :=
  fold_right (fun l n => S (length l + n)) 0%nat ls.

(** A header whose bold form is four characters longer. *)
Definition grows_by_four (h : text) : Prop :=
  plain_header h = true /\ length (bold_form h) = (length h + 4)%nat.

(** The text up to its first line boundary. *)
Fixpoint first_line (s : text) : text :=
  match s with
  | [] => []
  | c :: s' => if is_line_boundary c then [] else c :: first_line s'
  end.

(** The service answers every request. *)
Definition service_answers (ext : Collaborators) : Prop :=
  forall n prompt max_tokens,
    exists ot, service ext n prompt max_tokens = Resp ot.

(** The arguments of [annotate_pdf] with [margin_ratio] replaced. *)
Definition with_margin (a : Args) (m : Q) : Args :=
  mkArgs (input_pdf a) (output_pdf a) (src a) (course_name a)
         (node_script a) (side a) m (pages a) (cache_root a) (force a).
(** ** Facts about the string primitives *)

Lemma chr_eqb_eq a b : chr_eqb a b = true <-> a = b.
Proof. apply Ascii.eqb_eq. Qed.

Lemma chr_eqb_refl a : chr_eqb a a = true.
Proof. apply Ascii.eqb_refl. Qed.



Lemma lstrip_by_suffix blank s :
  exists l, s = l ++ lstrip_by blank s /\ forallb blank l = true.
Proof.
  induction s as [|c s [l [E Hl]]]; simpl.
  - exists []. split; reflexivity.
  - destruct (blank c) eqn:Hc.
    + exists (c :: l). simpl. rewrite Hc, Hl. split; [f_equal; exact E | reflexivity].
    + exists []. split; reflexivity.
Qed.

(** Stripping removes blanks at both ends and nothing else. *)
Lemma strip_by_decompose blank s :
  exists l r, s = l ++ strip_by blank s ++ r
              /\ forallb blank l = true /\ forallb blank r = true.
Proof.
  unfold strip_by.
  destruct (lstrip_by_suffix blank s) as [l [El Hl]].
  destruct (lstrip_by_suffix blank (rev (lstrip_by blank s))) as [r [Er Hr]].
  exists l, (rev r). repeat split.
  - rewrite El at 1. f_equal.
    rewrite <- (rev_involutive (lstrip_by blank s)) at 1.
    rewrite Er at 1. rewrite rev_app_distr. reflexivity.
  - exact Hl.
  - rewrite forallb_forall in *. intros x Hx. apply Hr.
    apply in_rev. exact Hx.
Qed.


Lemma digit_count_cons c r :
  digit_count (c :: r) = (if is_digit c then 1 else 0) + digit_count r.
Proof.
  unfold digit_count. cbn [List.filter]. destruct (is_digit c); cbn [length]; lia.
Qed.

Lemma digit_count_digits s :
  forallb is_digit s = true -> digit_count s = Z.of_nat (length s).
Proof.
  induction s as [|c s IH]; [reflexivity|]. cbn [forallb]. intros H.
  apply andb_true_iff in H as [Hc Hs].
  rewrite digit_count_cons, Hc, (IH Hs). cbn [length]. lia.
Qed.




















(** ** Facts about the chunk loop of parse_pages *)























Lemma existsb_negb_forallb {A} (f : A -> bool) l :
  existsb (fun x => negb (f x)) l = true -> forallb f l = false.
Proof.
  induction l as [|x l IH]; simpl; [discriminate|].
  destruct (f x); simpl; [exact IH | reflexivity].
Qed.




(** ** The page-selection parser *)

(** C3, as stated, fails: a range of valid numbers too long to be built
    raises [OverflowError] although the pages it names in the document
    are few; a number of more than 4300 digits raises [ValueError]; and
    on a machine that holds lists of no more than 70000 items the range
    1-100000 raises [MemoryError]. *)
Lemma parse_pages_selection_refuted :
  valid_spec (txt "1-99999999999999999999") = true
  /\ parse_pages 1000000 (Some (txt "1-99999999999999999999")) 5
     = Raise OverflowError
  /\ valid_spec (replicate 4301 "1"%char) = true
  /\ parse_pages 1000000 (Some (replicate 4301 "1"%char)) 5 = Raise ValueError
  /\ valid_spec (txt "1-100000") = true
  /\ parse_pages 70000 (Some (txt "1-100000")) 5 = Raise MemoryError.
Proof. repeat split; vm_compute; reflexivity. Qed.



(** C6, as stated, fails: with three pages the spec "1,3-5" selects
    page 3 as well, whatever the machine. *)
Lemma parse_pages_example_refuted :
  ~ exists mem,
      parse_pages mem (Some (txt "1,3-5")) 10 = Ok (Some [1; 3; 4; 5])
      /\ parse_pages mem (Some (txt "1,3-5")) 3 = Ok (Some [1]).
Proof. intros [mem [_ H]]. vm_compute in H. discriminate. Qed.

(** C6 (amended): the parser applied to "1,3-5" returns [1,3,4,5] when
    the document has 10 pages and [1,3] when it has 3 pages. *)
Theorem parse_pages_example (mem : Z) :
  parse_pages mem (Some (txt "1,3-5")) 10 = Ok (Some [1; 3; 4; 5])
  /\ parse_pages mem (Some (txt "1,3-5")) 3 = Ok (Some [1; 3]).
Proof. split; reflexivity. Qed.




(** ** Slug derivation *)

Lemma slug_char_fixed c :
  is_slug_char c || chr_eqb c "-" = true ->
  lower_char c = c /\ (is_slug_char c = true -> chr_eqb c "-" = false).
Proof.
  destruct c as [[] [] [] [] [] [] [] []]; vm_compute; intuition congruence.
Qed.

Lemma slug_shaped_lower b s : slug_shaped b s = true -> py_lower s = s.
Proof.
  revert b. induction s as [|c s IH]; intros b H; [reflexivity|].
  simpl in *. destruct (is_slug_char c) eqn:Hc.
  - rewrite (IH _ H). f_equal. apply slug_char_fixed. rewrite Hc. reflexivity.
  - apply andb_true_iff in H as [H1 H]. apply andb_true_iff in H1 as [H1 _].
    rewrite (IH _ H). f_equal. apply slug_char_fixed. rewrite H1, Hc. reflexivity.
Qed.

Lemma sub_runs_shaped b s : slug_shaped b (sub_runs b s) = true.
Proof.
  revert b. induction s as [|c s IH]; intros b; [reflexivity|].
  simpl. destruct (is_slug_char c) eqn:Hc.
  - simpl. rewrite Hc. apply IH.
  - destruct b; [apply IH|]. simpl. apply IH.
Qed.

Lemma sub_runs_fixed b s : slug_shaped b s = true -> sub_runs b s = s.
Proof.
  revert b. induction s as [|c s IH]; intros b H; [reflexivity|].
  simpl in *. destruct (is_slug_char c).
  - f_equal. apply IH, H.
  - apply andb_true_iff in H as [H1 H]. apply andb_true_iff in H1 as [Hc Hb].
    destruct b; [discriminate|]. apply chr_eqb_eq in Hc. subst c.
    f_equal. apply IH, H.
Qed.

Lemma lstrip_shaped_fixed s :
  slug_shaped true s = true -> lstrip_char "-" s = s.
Proof.
  destruct s as [|c s]; [reflexivity|]. simpl.
  destruct (is_slug_char c) eqn:Hc.
  - intros _. destruct (slug_char_fixed c) as [_ H]; [rewrite Hc; reflexivity|].
    rewrite (H Hc). reflexivity.
  - rewrite andb_false_r. discriminate.
Qed.

Lemma lstrip_shaped s :
  slug_shaped false s = true -> slug_shaped true (lstrip_char "-" s) = true.
Proof.
  destruct s as [|c s]; [reflexivity|]. simpl.
  destruct (is_slug_char c) eqn:Hc.
  - intros H. destruct (slug_char_fixed c) as [_ Hm]; [rewrite Hc; reflexivity|].
    rewrite (Hm Hc). simpl. rewrite Hc. exact H.
  - intros H. apply andb_true_iff in H as [H1 H].
    apply andb_true_iff in H1 as [H1 _]. rewrite H1.
    rewrite (lstrip_shaped_fixed s H). exact H.
Qed.

Lemma rstrip_shaped b s :
  slug_shaped b s = true -> slug_shaped b (rstrip_char "-" s) = true.
Proof.
  revert b. induction s as [|c s IH]; intros b H; [reflexivity|].
  simpl in *. destruct (is_slug_char c) eqn:Hc.
  - specialize (IH false H).
    destruct (slug_char_fixed c) as [_ Hm]; [rewrite Hc; reflexivity|].
    destruct (rstrip_char "-" s); simpl.
    + rewrite (Hm Hc). simpl. rewrite Hc. reflexivity.
    + rewrite Hc. exact IH.
  - apply andb_true_iff in H as [H1 H]. specialize (IH true H).
    pose proof H1 as H1'. apply andb_true_iff in H1' as [Hm _].
    destruct (rstrip_char "-" s); simpl.
    + rewrite Hm. reflexivity.
    + rewrite Hc, H1. exact IH.
Qed.

Lemma rstrip_char_idem ch s :
  rstrip_char ch (rstrip_char ch s) = rstrip_char ch s.
Proof.
  induction s as [|c s IH]; [reflexivity|]. simpl.
  destruct (rstrip_char ch s) as [|d r] eqn:E.
  - destruct (chr_eqb c ch) eqn:Hc; [reflexivity|]. simpl. rewrite Hc. reflexivity.
  - change (rstrip_char ch (c :: d :: r)) with
      (match rstrip_char ch (d :: r) with
       | [] => if chr_eqb c ch then [] else [c]
       | x :: r' => c :: x :: r'
       end).
    rewrite IH. reflexivity.
Qed.

Lemma slug_shaped_result s : slug_shaped true (_slug s) = true.
Proof.
  unfold _slug, strip_char. apply rstrip_shaped, lstrip_shaped, sub_runs_shaped.
Qed.

(** C9: slug derivation is idempotent; "Reinforcement Learning!" gives
    "reinforcement-learning"; and a slug consists of characters of
    [a-z0-9] and single hyphens, with no hyphen at either end (what
    lower-casing, collapsing the runs of other characters to one hyphen
    and stripping hyphens leaves). *)
Theorem slug_idempotent (s : text) :
  _slug (_slug s) = _slug s
  /\ _slug (txt "Reinforcement Learning!") = txt "reinforcement-learning"
  /\ slug_shaped true (_slug s) = true
  /\ strip_char "-" (_slug s) = _slug s
  /\ _slug s = strip_char "-" (sub_runs false (py_lower s)).
Proof.
  pose proof (slug_shaped_result s) as Hs.
  assert (Hstrip : strip_char "-" (_slug s) = _slug s).
  { unfold strip_char. rewrite (lstrip_shaped_fixed _ Hs).
    unfold _slug at 1 2, strip_char. apply rstrip_char_idem. }
  split; [|split; [reflexivity | split; [exact Hs | split; [exact Hstrip | reflexivity]]]].
  unfold _slug at 1.
  rewrite (slug_shaped_lower _ _ Hs), (sub_runs_fixed false (_slug s)).
  - exact Hstrip.
  - simpl in Hs. destruct (_slug s) as [|c t]; [reflexivity|].
    simpl in *. destruct (is_slug_char c); [exact Hs|].
    rewrite andb_false_r in Hs. discriminate.
Qed.

(** ** Lines of a text *)

Lemma lines_nonempty s : lines s <> [].
Proof.
  unfold lines. destruct s as [|c s]; simpl; [discriminate|].
  destruct (chr_eqb c newline); [discriminate|].
  destruct (py_split newline s); discriminate.
Qed.

Lemma lines_cons_nl s : lines (newline :: s) = [] :: lines s.
Proof. reflexivity. Qed.

Lemma lines_cons_other c s :
  chr_eqb c newline = false ->
  lines (c :: s) = (c :: hd [] (lines s)) :: tl (lines s).
Proof.
  intros H. pose proof (lines_nonempty s) as Hne. unfold lines in *. simpl.
  rewrite H. destruct (py_split newline s); [congruence | reflexivity].
Qed.

Lemma lines_app_no_nl h s :
  no_nl h = true -> lines (h ++ s) = (h ++ hd [] (lines s)) :: tl (lines s).
Proof.
  induction h as [|c h IH]; intros Hh; simpl.
  - pose proof (lines_nonempty s). destruct (lines s); [congruence | reflexivity].
  - simpl in Hh. apply andb_true_iff in Hh as [Hc Hh].
    apply negb_true_iff in Hc.
    rewrite (lines_cons_other c (h ++ s) Hc), (IH Hh). reflexivity.
Qed.

Lemma lines_no_nl s : Forall (fun l => no_nl l = true) (lines s).
Proof.
  induction s as [|c s IH].
  - repeat constructor.
  - destruct (chr_eqb c newline) eqn:Hc.
    + apply chr_eqb_eq in Hc. subst c. rewrite lines_cons_nl.
      constructor; [reflexivity | exact IH].
    + rewrite (lines_cons_other c s Hc).
      pose proof (lines_nonempty s). destruct (lines s) as [|l ls]; [congruence|].
      inversion IH; subst. constructor; [|assumption].
      simpl. rewrite Hc. simpl. assumption.
Qed.

Lemma join_lines_cons l ls :
  ls <> [] -> join_lines (l :: ls) = l ++ newline :: join_lines ls.
Proof. destruct ls; [congruence | reflexivity]. Qed.

Lemma join_lines_lines s : join_lines (lines s) = s.
Proof.
  induction s as [|c s IH]; [reflexivity|].
  destruct (chr_eqb c newline) eqn:Hc.
  - apply chr_eqb_eq in Hc. subst c. rewrite lines_cons_nl.
    rewrite join_lines_cons by apply lines_nonempty. simpl. f_equal. exact IH.
  - rewrite (lines_cons_other c s Hc).
    pose proof (lines_nonempty s). destruct (lines s) as [|l ls]; [congruence|].
    simpl hd. simpl tl. destruct ls as [|l' ls].
    + simpl in *. f_equal. exact IH.
    + rewrite join_lines_cons by discriminate.
      rewrite join_lines_cons in IH by discriminate.
      simpl. f_equal. exact IH.
Qed.

Lemma lines_join_lines ls :
  ls <> [] -> Forall (fun l => no_nl l = true) ls -> lines (join_lines ls) = ls.
Proof.
  induction ls as [|l ls IH]; [congruence|]. intros _ Hf.
  inversion Hf as [|? ? Hl Hls]; subst.
  destruct ls as [|l' ls].
  - simpl. rewrite <- (app_nil_r l) at 1. rewrite (lines_app_no_nl l [] Hl).
    simpl. rewrite app_nil_r. reflexivity.
  - rewrite join_lines_cons by discriminate.
    rewrite (lines_app_no_nl l _ Hl), lines_cons_nl. simpl.
    rewrite app_nil_r. f_equal. apply IH; [discriminate | exact Hls].
Qed.

Lemma starts_with_app h s :
  starts_with h s = true -> s = h ++ drop (length h) s.
Proof.
  revert s. induction h as [|a h IH]; intros s H; [reflexivity|].
  destruct s as [|c s]; [discriminate|]. simpl in *.
  apply andb_true_iff in H as [Hc H]. apply chr_eqb_eq in Hc. subst.
  f_equal. apply IH, H.
Qed.

Lemma starts_with_self_app h s : starts_with h (h ++ s) = true.
Proof.
  induction h as [|a h IH]; [reflexivity|]. simpl.
  rewrite chr_eqb_refl. exact IH.
Qed.

Lemma starts_with_first_line h s :
  no_nl h = true -> starts_with h (hd [] (lines s)) = starts_with h s.
Proof.
  revert s. induction h as [|a h IH]; intros s Hh.
  - destruct (hd [] (lines s)), s; reflexivity.
  - simpl in Hh. apply andb_true_iff in Hh as [Ha Hh].
    apply negb_true_iff in Ha.
    destruct s as [|c s]; [reflexivity|].
    destruct (chr_eqb c newline) eqn:Hc.
    + apply chr_eqb_eq in Hc. subst c. rewrite lines_cons_nl. simpl.
      rewrite Ha. reflexivity.
    + rewrite (lines_cons_other c s Hc). simpl. rewrite (IH s Hh). reflexivity.
Qed.

(** ** One header's substitution, line by line *)

Lemma plain_header_no_nl h : plain_header h = true -> no_nl h = true.
Proof.
  destruct h; [discriminate|]. unfold plain_header.
  rewrite andb_true_iff. tauto.
Qed.

Lemma last_no_nl h d :
  h <> [] -> no_nl h = true -> chr_eqb (List.last h d) newline = false.
Proof.
  induction h as [|c h IH]; [congruence|]. intros _ H.
  simpl in H. apply andb_true_iff in H as [Hc Hh].
  destruct h as [|c' h'].
  - simpl. apply negb_true_iff, Hc.
  - change (List.last (c :: c' :: h') d) with (List.last (c' :: h') d).
    apply IH; [discriminate | exact Hh].
Qed.

Lemma rewrite_line_for_nonempty h l : rewrite_line_for h l <> [].
Proof. unfold rewrite_line_for. destruct (starts_with h l); discriminate. Qed.

Lemma pass_lines_nonempty h ls : ls <> [] -> pass_lines h ls <> [].
Proof.
  destruct ls as [|l ls]; [congruence|]. intros _. unfold pass_lines. simpl.
  pose proof (rewrite_line_for_nonempty h l).
  destruct (rewrite_line_for h l); [congruence | discriminate].
Qed.

Lemma sub_line_start_lines fuel h bol s :
  plain_header h = true -> (length s <= fuel)%nat ->
  sub_line_start fuel h (replacement h) bol s
  = join_lines (scan_lines h bol (lines s)).
Proof.
  intros Hp. pose proof (plain_header_no_nl h Hp) as Hn.
  assert (Hne : h <> []) by (destruct h; [discriminate | congruence]).
  revert bol s. induction fuel as [|fuel IH]; intros bol s Hlen.
  - destruct s; [|simpl in Hlen; lia]. simpl.
    unfold rewrite_line_for. destruct h; [congruence|].
    destruct bol; reflexivity.
  - destruct s as [|c s].
    { simpl. unfold rewrite_line_for. destruct h; [congruence|].
      destruct bol; reflexivity. }
    simpl in Hlen.
    change (sub_line_start (S fuel) h (replacement h) bol (c :: s)) with
      (if bol && starts_with h (c :: s)
       then replacement h ++ sub_line_start fuel h (replacement h)
              (chr_eqb (List.last h newline) newline)
              (drop (length h) (c :: s))
       else c :: sub_line_start fuel h (replacement h) (chr_eqb c newline) s).
    destruct (bol && starts_with h (c :: s)) eqn:Hm.
    + apply andb_true_iff in Hm as [-> Hm].
      rewrite (last_no_nl h newline Hne Hn).
      pose proof (starts_with_app _ _ Hm) as Es.
      rewrite IH.
      2:{ rewrite length_drop. destruct h; [congruence|]. simpl. lia. }
      rewrite Es at 2. rewrite (lines_app_no_nl h _ Hn).
      pose proof (lines_nonempty (drop (length h) (c :: s))) as Hl.
      destruct (lines (drop (length h) (c :: s))) as [|l0 ls]; [congruence|].
      simpl hd. simpl tl. unfold scan_lines, rewrite_line_for.
      rewrite starts_with_self_app, drop_app_length.
      unfold replacement. rewrite <- app_assoc. simpl.
      destruct (pass_lines h ls); reflexivity.
    + destruct (chr_eqb c newline) eqn:Hc.
      * apply chr_eqb_eq in Hc. subst c. rewrite lines_cons_nl.
        rewrite IH by lia.
        assert (E : (if bol then rewrite_line_for h [] else [[]]) = [[]]).
        { unfold rewrite_line_for. destruct h; [congruence|].
          destruct bol; reflexivity. }
        unfold scan_lines at 2. rewrite E.
        pose proof (lines_nonempty s) as Hl.
        destruct (lines s) as [|l0 ls] eqn:El; [congruence|].
        change ([[]] ++ pass_lines h (l0 :: ls)) with ([] :: pass_lines h (l0 :: ls)).
        rewrite join_lines_cons by (apply pass_lines_nonempty; discriminate).
        reflexivity.
      * rewrite (lines_cons_other c s Hc). rewrite IH by lia.
        assert (E : (if bol then rewrite_line_for h (c :: hd [] (lines s))
                     else [c :: hd [] (lines s)]) = [c :: hd [] (lines s)]).
        { destruct bol; [|reflexivity]. unfold rewrite_line_for.
          assert (starts_with h (c :: hd [] (lines s)) = false) as ->;
            [|reflexivity].
          simpl in Hm. rewrite <- Hm.
          rewrite <- (starts_with_first_line h (c :: s) Hn).
          rewrite (lines_cons_other c s Hc). reflexivity. }
        unfold scan_lines. rewrite E.
        pose proof (lines_nonempty s) as Hl.
        destruct (lines s) as [|l0 ls]; [congruence|].
        simpl hd. simpl tl. simpl.
        destruct (pass_lines h ls); reflexivity.
Qed.

(** A turn of the loop rewrites the lines beginning with its header and
    no other text. *)
Lemma format_header_lines h body :
  plain_header h = true ->
  format_header body h = join_lines (pass_lines h (lines body)).
Proof.
  intros Hp. unfold format_header, re_sub_line_start.
  rewrite (sub_line_start_lines _ h true body Hp) by lia.
  unfold scan_lines. pose proof (lines_nonempty body).
  destruct (lines body); [congruence | reflexivity].
Qed.

(** ** The loop over the headers, line by line *)

Lemma headers_plain : Forall (fun h => plain_header h = true) headers.
Proof. repeat constructor. Qed.

Lemma no_nl_app a b : no_nl (a ++ b) = no_nl a && no_nl b.
Proof. apply forallb_app. Qed.

Lemma no_nl_drop n s : no_nl s = true -> no_nl (drop n s) = true.
Proof.
  revert n. induction s as [|c s IH]; intros [|n] H; try reflexivity.
  - exact H.
  - simpl in *. apply andb_true_iff in H as [_ H]. apply IH, H.
Qed.

Lemma no_nl_rstrip ch s : no_nl s = true -> no_nl (rstrip_char ch s) = true.
Proof.
  induction s as [|c s IH]; [reflexivity|]. simpl. intros H.
  apply andb_true_iff in H as [Hc Hs]. specialize (IH Hs).
  destruct (rstrip_char ch s).
  - destruct (chr_eqb c ch); [reflexivity|]. simpl. rewrite Hc. reflexivity.
  - change (no_nl (c :: a :: l)) with
      (negb (chr_eqb c newline) && no_nl (a :: l)).
    rewrite Hc, IH. reflexivity.
Qed.

Lemma no_nl_bold_form h : no_nl h = true -> no_nl (bold_form h) = true.
Proof.
  intros H. unfold bold_form. rewrite !no_nl_app, (no_nl_rstrip _ _ H).
  reflexivity.
Qed.

Lemma pass_lines_no_nl h ls :
  no_nl h = true ->
  Forall (fun l => no_nl l = true) ls ->
  Forall (fun l => no_nl l = true) (pass_lines h ls).
Proof.
  intros Hh. induction 1 as [|l ls Hl _ IH]; [constructor|].
  unfold pass_lines. simpl. apply Forall_app. split; [|exact IH].
  unfold rewrite_line_for. destruct (starts_with h l).
  - repeat constructor; [apply no_nl_bold_form, Hh | apply no_nl_drop, Hl].
  - repeat constructor. exact Hl.
Qed.

(** The whole loop acts on the lines of the text. *)
Lemma format_headers_passes hs ls :
  Forall (fun h => plain_header h = true) hs ->
  ls <> [] -> Forall (fun l => no_nl l = true) ls ->
  fold_left format_header hs (join_lines ls) = join_lines (passes hs ls).
Proof.
  intros Hhs. revert ls. induction Hhs as [|h hs Hh _ IH]; intros ls Hne Hls.
  - reflexivity.
  - simpl. rewrite (format_header_lines h _ Hh).
    rewrite (lines_join_lines ls Hne Hls). apply IH.
    + apply pass_lines_nonempty, Hne.
    + apply pass_lines_no_nl; [apply plain_header_no_nl, Hh | exact Hls].
Qed.

Lemma passes_cons h hs ls : passes (h :: hs) ls = passes hs (pass_lines h ls).
Proof. reflexivity. Qed.

Lemma pass_lines_single h l : pass_lines h [l] = rewrite_line_for h l.
Proof. unfold pass_lines. simpl. apply app_nil_r. Qed.

Lemma passes_flat_map hs ls :
  passes hs ls = flat_map (fun l => passes hs [l]) ls.
Proof.
  revert ls. induction hs as [|h hs IH]; intros ls.
  - induction ls as [|l ls IHl]; [reflexivity|].
    simpl. f_equal. exact IHl.
  - rewrite passes_cons, IH. unfold pass_lines.
    induction ls as [|l ls IHl]; [reflexivity|].
    simpl flat_map. rewrite flat_map_app, IHl. f_equal.
    rewrite app_nil_r. symmetry. apply IH.
Qed.

Lemma pass_lines_noop h ls :
  Forall (fun l => starts_with h l = false) ls -> pass_lines h ls = ls.
Proof.
  induction 1 as [|l ls Hl _ IH]; [reflexivity|].
  unfold pass_lines in *. simpl. unfold rewrite_line_for at 1.
  rewrite Hl, IH. reflexivity.
Qed.

Lemma passes_noop hs ls :
  Forall (fun l => first_header hs l = None) ls -> passes hs ls = ls.
Proof.
  revert ls. induction hs as [|h hs IH]; intros ls H; [reflexivity|].
  rewrite passes_cons, pass_lines_noop.
  - apply IH. eapply Forall_impl; [exact H|]. intros l Hl. simpl in Hl.
    unfold first_header in *. simpl in Hl.
    destruct (starts_with h l); [discriminate | exact Hl].
  - eapply Forall_impl; [exact H|]. intros l Hl.
    unfold first_header in Hl. simpl in Hl.
    destruct (starts_with h l); [discriminate | reflexivity].
Qed.

Lemma first_header_bold hs h :
  Forall (fun h => plain_header h = true) hs ->
  first_header hs (bold_form h) = None.
Proof.
  induction 1 as [|h' hs Hp _ IH]; [reflexivity|].
  unfold first_header in *. simpl.
  destruct h' as [|c h']; [discriminate|].
  unfold plain_header in Hp. apply andb_true_iff in Hp as [Hc _].
  apply negb_true_iff in Hc. unfold bold_form. simpl. rewrite Hc. simpl.
  exact IH.
Qed.

Lemma first_header_tail h hs l :
  first_header (h :: hs) l = None -> first_header hs l = None.
Proof.
  unfold first_header. simpl. destruct (starts_with h l); [discriminate | tauto].
Qed.

(** A single line through all the turns: only its first header counts,
    provided what follows that header begins with no header. *)
Lemma passes_single hs l :
  Forall (fun h => plain_header h = true) hs ->
  (forall h, first_header hs l = Some h ->
             first_header hs (drop (length h) l) = None) ->
  passes hs [l]
  = match first_header hs l with
    | Some h => [bold_form h; drop (length h) l]
    | None => [l]
    end.
Proof.
  induction 1 as [|h hs Hp Hhs IH]; intros Hrest; [reflexivity|].
  rewrite passes_cons, pass_lines_single.
  unfold rewrite_line_for, first_header in *. simpl in *.
  destruct (starts_with h l) eqn:Hs.
  - apply (passes_noop hs). repeat constructor.
    + apply first_header_bold, Hhs.
    + apply (first_header_tail h). apply Hrest. reflexivity.
  - apply IH. intros h0 H0. specialize (Hrest h0 H0).
    apply (first_header_tail h), Hrest.
Qed.

(** ** Header formatting *)

Lemma line_header_plain l h :
  line_header l = Some h -> plain_header h = true.
Proof.
  unfold line_header. intros H. apply find_some in H as [Hin _].
  pose proof headers_plain as Hp. rewrite Forall_forall in Hp.
  apply Hp, list_elem_of_In, Hin.
Qed.

Lemma no_stacked_headers_lines body :
  no_stacked_headers body = true -> Forall unstacked (lines body).
Proof.
  unfold no_stacked_headers. rewrite forallb_forall, Forall_forall.
  intros H l Hl h Hh. specialize (H l (proj1 (list_elem_of_In _ _) Hl)).
  rewrite Hh in H. destruct (line_header (drop (length h) l)); congruence.
Qed.

Lemma passes_rewrite_line l :
  unstacked l -> passes headers [l] = rewrite_line l.
Proof.
  intros H. rewrite (passes_single headers l headers_plain H). reflexivity.
Qed.

Lemma passes_rewrite_lines ls :
  Forall unstacked ls -> passes headers ls = flat_map rewrite_line ls.
Proof.
  intros H. rewrite passes_flat_map.
  induction H as [|l ls Hl _ IH]; [reflexivity|].
  cbn [flat_map]. rewrite IH, (passes_rewrite_line l Hl). reflexivity.
Qed.

Lemma rewrite_line_clean l :
  no_nl l = true -> unstacked l ->
  Forall (fun l' => no_nl l' = true /\ line_header l' = None) (rewrite_line l).
Proof.
  intros Hn Hu. unfold rewrite_line. destruct (line_header l) as [h|] eqn:E.
  - apply Forall_cons. split; [split|apply Forall_cons; split; [split|constructor]].
    + apply no_nl_bold_form, plain_header_no_nl, (line_header_plain l), E.
    + apply (first_header_bold headers h headers_plain).
    + apply no_nl_drop, Hn.
    + apply Hu, E.
  - apply Forall_cons. split; [split; assumption | constructor].
Qed.

Lemma flat_map_rewrite_clean ls :
  Forall (fun l => no_nl l = true) ls -> Forall unstacked ls ->
  Forall (fun l' => no_nl l' = true /\ line_header l' = None)
         (flat_map rewrite_line ls).
Proof.
  induction 1 as [|l ls Hl _ IH]; intros Hu; [constructor|].
  inversion Hu; subst. simpl. apply Forall_app. split.
  - apply rewrite_line_clean; assumption.
  - apply IH. assumption.
Qed.

Lemma flat_map_rewrite_nonempty ls : ls <> [] -> flat_map rewrite_line ls <> [].
Proof.
  destruct ls as [|l ls]; [congruence|]. intros _. simpl.
  unfold rewrite_line. destruct (line_header l); discriminate.
Qed.

(** When no header at a line start is directly followed by a header,
    the loop rewrites exactly the headers at the line starts of its
    input. *)
Lemma format_unstacked body :
  no_stacked_headers body = true ->
  format_annotation_headers body = rewrite_line_starts body.
Proof.
  intros H. apply no_stacked_headers_lines in H.
  unfold format_annotation_headers, rewrite_line_starts.
  rewrite <- (join_lines_lines body) at 1.
  rewrite (format_headers_passes headers (lines body) headers_plain
             (lines_nonempty body) (lines_no_nl body)).
  f_equal. apply passes_rewrite_lines, H.
Qed.

Lemma no_line_header_unstacked body :
  no_line_header body = true -> no_stacked_headers body = true.
Proof.
  unfold no_line_header, no_stacked_headers. rewrite !forallb_forall.
  intros H l Hl. specialize (H l Hl). destruct (line_header l); congruence.
Qed.

(** No header at any line start: nothing changes. *)
Lemma format_no_header body :
  no_line_header body = true -> format_annotation_headers body = body.
Proof.
  intros H. rewrite (format_unstacked body (no_line_header_unstacked body H)).
  unfold rewrite_line_starts. rewrite <- (join_lines_lines body) at 2.
  f_equal. unfold no_line_header in H. rewrite forallb_forall in H.
  induction (lines body) as [|l ls IH]; [reflexivity|].
  simpl. unfold rewrite_line at 1.
  pose proof (H l (or_introl eq_refl)) as Hl.
  destruct (line_header l); [discriminate|].
  simpl. f_equal. apply IH. intros x Hx. apply H. right. exact Hx.
Qed.

(** After the rewriting no line begins with a header. *)
Lemma format_unstacked_clean body :
  no_stacked_headers body = true ->
  no_line_header (format_annotation_headers body) = true.
Proof.
  intros H. rewrite (format_unstacked body H).
  apply no_stacked_headers_lines in H.
  pose proof (flat_map_rewrite_clean (lines body) (lines_no_nl body) H) as Hc.
  unfold rewrite_line_starts, no_line_header.
  rewrite lines_join_lines.
  - rewrite forallb_forall. rewrite Forall_forall in Hc. intros l Hl.
    destruct (Hc l (proj2 (list_elem_of_In _ _) Hl)) as [_ ->]. reflexivity.
  - apply flat_map_rewrite_nonempty, lines_nonempty.
  - eapply Forall_impl; [exact Hc|]. intros l [Hl _]. exact Hl.
Qed.

Example format_headers_stacked :
  format_annotation_headers (txt "Title:Explanation: x")
  = txt "**Title:**" ++ newline :: txt "**Explanation:**" ++ newline :: txt " x".
Proof. reflexivity. Qed.

Example format_headers_twice :
  format_annotation_headers (txt "Explanation:Title: x")
  = txt "**Explanation:**" ++ newline :: txt "Title: x"
  /\ format_annotation_headers
       (format_annotation_headers (txt "Explanation:Title: x"))
     = txt "**Explanation:**" ++ newline :: txt "**Title:**" ++ newline
       :: txt " x".
Proof. split; reflexivity. Qed.

(** C5, as stated, fails: in "Title:Explanation: x" the header
    "Explanation:" does not stand at a line start, yet it is rewritten,
    because the line break that ends the bold "Title:" puts it there. *)
Lemma format_headers_inner_header_rewritten :
  ~ (forall body, format_annotation_headers body = rewrite_line_starts body).
Proof.
  intros H. specialize (H (txt "Title:Explanation: x")).
  vm_compute in H. discriminate.
Qed.

(** C5 (amended): each recognized header gets one turn of the loop, and
    a turn rewrites to bold exactly the lines of the current text that
    begin with its header, leaving all other text as it is; on every
    text where no header at a line start is directly followed by another
    recognized header, the result is the input with exactly the headers
    at its line starts rewritten, once each; and a text with no
    recognized header at a line start is returned unchanged. *)
Theorem format_headers_line_starts (body : text) :
  Forall (fun h =>
            format_header body h = join_lines (pass_lines h (lines body)))
         headers
  /\ format_annotation_headers body = fold_left format_header headers body
  /\ (no_stacked_headers body = true ->
      format_annotation_headers body = rewrite_line_starts body)
  /\ (no_line_header body = true -> format_annotation_headers body = body).
Proof.
  split; [|split; [reflexivity | split]].
  - eapply Forall_impl; [exact headers_plain|].
    intros h Hh. apply format_header_lines, Hh.
  - apply format_unstacked.
  - apply format_no_header.
Qed.

Lemma format_headers_line_starts_witness :
  format_annotation_headers
    (txt "Explanation: a" ++ newline :: txt "see Title: b")
  = rewrite_line_starts
      (txt "Explanation: a" ++ newline :: txt "see Title: b")
  /\ format_annotation_headers (txt "see Title: b") = txt "see Title: b".
Proof.
  split.
  - apply (proj1 (proj2 (proj2 (format_headers_line_starts
             (txt "Explanation: a" ++ newline :: txt "see Title: b"))))).
    reflexivity.
  - apply (proj2 (proj2 (proj2 (format_headers_line_starts
             (txt "see Title: b"))))).
    reflexivity.
Defined.

(** C10, as stated, fails: formatting "Explanation:Title: x" once leaves
    "Title:" at a line start, and a second application rewrites it. *)
Lemma format_headers_not_idempotent :
  ~ (forall body,
       format_annotation_headers (format_annotation_headers body)
       = format_annotation_headers body).
Proof.
  intros H. specialize (H (txt "Explanation:Title: x")).
  vm_compute in H. discriminate.
Qed.

(** C10 (amended): on every text where no recognized header at a line
    start is directly followed by another recognized header, formatting
    twice gives the same text as formatting once; the bold form of a
    header begins with no recognized header. *)
Theorem format_headers_idempotent (body : text) :
  (no_stacked_headers body = true ->
   format_annotation_headers (format_annotation_headers body)
   = format_annotation_headers body)
  /\ Forall (fun h => line_header (bold_form h) = None) headers.
Proof.
  split.
  - intros H. apply format_no_header, format_unstacked_clean, H.
  - repeat constructor.
Qed.

Lemma format_headers_idempotent_witness :
  format_annotation_headers
    (format_annotation_headers
       (txt "Explanation: a" ++ newline :: txt "Intuition: b"))
  = format_annotation_headers
      (txt "Explanation: a" ++ newline :: txt "Intuition: b").
Proof.
  apply (proj1 (format_headers_idempotent
                  (txt "Explanation: a" ++ newline :: txt "Intuition: b"))).
  reflexivity.
Defined.

(** ** Page geometry *)

Lemma layout_right m w h :
  layout (txt "right") m w h
  = mkLayout (w + w * m)%Q h (mkRect 0 0 w h) (mkRect w 0 (w + w * m)%Q h).
Proof. reflexivity. Qed.

Lemma layout_other side m w h :
  side <> txt "right" ->
  layout side m w h
  = mkLayout (w + w * m)%Q h (mkRect (w * m)%Q 0 (w + w * m)%Q h)
             (mkRect 0 0 (w * m)%Q h).
Proof.
  intros H. unfold layout. rewrite bool_decide_eq_false_2 by exact H.
  reflexivity.
Qed.

Lemma layout_cases side m w h :
  layout side m w h
  = mkLayout (w + w * m)%Q h (mkRect 0 0 w h) (mkRect w 0 (w + w * m)%Q h)
  \/ layout side m w h
     = mkLayout (w + w * m)%Q h (mkRect (w * m)%Q 0 (w + w * m)%Q h)
                (mkRect 0 0 (w * m)%Q h).
Proof.
  destruct (decide (side = txt "right")) as [-> | Hne].
  - left. apply layout_right.
  - right. apply layout_other, Hne.
Qed.

(** C1: for every page of width [w] and height [h], every margin ratio
    [m] and every side, the new page has width [w + w*m] and height [h];
    the rectangle of the original and the notes rectangle have disjoint
    interiors and both span the height [0..h]; for "right" the original
    is at x in [0, w] and the notes at x in [w, w + w*m], for "left" the
    original is at x in [w*m, w + w*m] and the notes at x in [0, w*m];
    these are the page and the rectangles [annotate_pdf] creates; and
    for a width [w >= 0] and a margin ratio [m >= 0] the union of the
    two rectangles is the rectangle of the new page. *)
Theorem layout_tiles_page (sd : text) (m w h : Q) :
  let l := layout sd m w h in
  new_w l = (w + w * m)%Q /\ new_h l = h
  /\ (forall x y,
        ~ (in_interior (orig_rect l) x y /\ in_interior (notes_rect l) x y))
  /\ (y0 (orig_rect l) = 0%Q /\ y1 (orig_rect l) = h
      /\ y0 (notes_rect l) = 0%Q /\ y1 (notes_rect l) = h)
  /\ (sd = txt "right" ->
      orig_rect l = mkRect 0 0 w h
      /\ notes_rect l = mkRect w 0 (w + w * m)%Q h)
  /\ (sd = txt "left" ->
      orig_rect l = mkRect (w * m)%Q 0 (w + w * m)%Q h
      /\ notes_rect l = mkRect 0 0 (w * m)%Q h)
  /\ (forall a content blocks idx world,
        sd = side a -> m = margin_ratio a ->
        compose_page a (mkPage w h content blocks) idx world
        = (Ok (notes_rect l),
           mkWorld (files world) (calls world)
             ((trace world ++ [EvNewPage (new_w l) (new_h l)])
              ++ [EvShowSource (orig_rect l) (idx - 1)])))
  /\ ((0 <= w)%Q -> (0 <= m)%Q ->
      forall x y,
        in_rect (page_rect l) x y
        <-> in_rect (orig_rect l) x y \/ in_rect (notes_rect l) x y).
Proof.
  intros l.
  assert (Hgeo :
    new_w l = (w + w * m)%Q /\ new_h l = h
    /\ (forall x y,
          ~ (in_interior (orig_rect l) x y /\ in_interior (notes_rect l) x y))
    /\ (y0 (orig_rect l) = 0%Q /\ y1 (orig_rect l) = h
        /\ y0 (notes_rect l) = 0%Q /\ y1 (notes_rect l) = h)).
  { subst l. set (nw := (w * m)%Q) in *.
    destruct (layout_cases sd m w h) as [-> | ->]; fold nw;
      unfold in_interior; simpl;
      (split; [reflexivity|]); (split; [reflexivity|]);
      (split; [intros x y; lra | tauto]). }
  destruct Hgeo as (H1 & H2 & H3 & H4).
  repeat (split; [assumption|]).
  split; [|split; [|split]].
  - intros ->. subst l. rewrite layout_right. split; reflexivity.
  - intros ->. subst l. rewrite layout_other by discriminate.
    split; reflexivity.
  - intros a content blocks idx world -> ->. reflexivity.
  - intros Hw Hm.
    assert (Hwm : (0 <= w * m)%Q) by (apply Qmult_le_0_compat; assumption).
    subst l. set (nw := (w * m)%Q) in *.
    destruct (layout_cases sd m w h) as [-> | ->]; fold nw;
      unfold in_rect, page_rect; simpl; intros x y; split; intros H.
    + destruct (Qlt_le_dec x w); [left | right]; lra.
    + destruct H; lra.
    + destruct (Qlt_le_dec x nw); [right | left]; lra.
    + destruct H; lra.
Qed.

(** The bound on the margin ratio is needed: with a negative ratio the
    notes rectangle is empty and the original overhangs the new page. *)
Lemma layout_negative_margin :
  let l := layout (txt "right") (- (1 # 2)) 100 50 in
  in_rect (orig_rect l) 80 10 /\ ~ in_rect (page_rect l) 80 10.
Proof.
  unfold in_rect. simpl. split.
  - repeat split; vm_compute; discriminate.
  - intros (_ & H & _). vm_compute in H. apply H. reflexivity.
Qed.

Lemma layout_tiles_page_witness :
  notes_rect (layout (txt "left") (1 # 2) 100 50)
  = mkRect 0 0 (100 * (1 # 2))%Q 50
  /\ (forall x y,
        in_rect (page_rect (layout (txt "left") (1 # 2) 100 50)) x y
        <-> in_rect (orig_rect (layout (txt "left") (1 # 2) 100 50)) x y
            \/ in_rect (notes_rect (layout (txt "left") (1 # 2) 100 50)) x y).
Proof.
  assert (Hw : (0 <= 100)%Q) by (vm_compute; discriminate).
  assert (Hm : (0 <= 1 # 2)%Q) by (vm_compute; discriminate).
  destruct (layout_tiles_page (txt "left") (1 # 2) 100 50)
    as (_ & _ & _ & _ & _ & Hleft & _ & Hunion).
  split.
  - exact (proj2 (Hleft eq_refl)).
  - exact (Hunion Hw Hm).
Defined.

(** ** The renderer adapter *)

Lemma Qmax0_nonneg q : (0 <= Qmax0 q)%Q.
Proof.
  unfold Qmax0. destruct (Qle_bool 0 q) eqn:E.
  - apply Qle_bool_iff, E.
  - apply Qle_refl.
Qed.

(** [int()] of a float that is not negative is its integer part. *)
Lemma py_int_of_float_floor q :
  (0 <= q)%Q -> py_int_of_float q = Qfloor q.
Proof.
  destruct q as [n d]. unfold Qle. simpl. intros H.
  unfold py_int_of_float. simpl. apply Z.quot_div_nonneg; lia.
Qed.

Lemma render_env_width ext r :
  render_env ext r !! txt "NOTE_WIDTH"
  = Some (py_str_int (py_int_of_float (rect_width r))).
Proof.
  unfold render_env. rewrite lookup_insert_ne.
  - apply lookup_insert_eq.
  - intros H. vm_compute in H. discriminate.
Qed.

Lemma render_env_height ext r :
  render_env ext r !! txt "NOTE_HEIGHT"
  = Some (py_str_int (py_int_of_float (rect_height r))).
Proof. unfold render_env. apply lookup_insert_eq. Qed.

(** C8, as stated, fails: a notes rectangle 100.7 units wide is
    announced to the renderer as 100, not as the nearest integer 101. *)
Lemma render_env_not_rounded :
  ~ (forall ext r,
       render_env ext r !! txt "NOTE_WIDTH"
       = Some (py_str_int (round_nearest (rect_width r)))).
Proof.
  intros H.
  specialize (H (sample_ext 0 [] 0) (mkRect 0 0 (1007 # 10) 50)).
  rewrite render_env_width in H. vm_compute in H. discriminate.
Qed.

(** C8 (amended): for every notes rectangle the renderer is started
    with an environment whose NOTE_WIDTH and NOTE_HEIGHT are the decimal
    forms of the rectangle's width and height truncated to their
    integer parts (a width of 100.7 units is passed as 100). *)
Theorem render_env_truncates (ext : Collaborators) (markdown script : text)
  (r : Rect) (w : World) :
  render_env ext r !! txt "NOTE_WIDTH"
    = Some (py_str_int (Qfloor (rect_width r)))
  /\ render_env ext r !! txt "NOTE_HEIGHT"
    = Some (py_str_int (Qfloor (rect_height r)))
  /\ (inject_Z (Qfloor (rect_width r)) <= rect_width r
      < inject_Z (Qfloor (rect_width r) + 1))%Q
  /\ (inject_Z (Qfloor (rect_height r)) <= rect_height r
      < inject_Z (Qfloor (rect_height r) + 1))%Q
  /\ (exists tail,
        trace (snd (render_md_to_pdf ext markdown script r w))
        = trace w ++ EvNode script (encode_utf8 markdown) (render_env ext r)
                     :: tail)
  /\ render_env ext (mkRect 0 0 (1007 # 10) 50) !! txt "NOTE_WIDTH"
     = Some (txt "100").
Proof.
  split; [|split; [|split; [|split; [|split]]]].
  - rewrite render_env_width, py_int_of_float_floor by apply Qmax0_nonneg.
    reflexivity.
  - rewrite render_env_height, py_int_of_float_floor by apply Qmax0_nonneg.
    reflexivity.
  - split; [apply Qfloor_le | apply Qlt_floor].
  - split; [apply Qfloor_le | apply Qlt_floor].
  - unfold render_md_to_pdf, bind, emit, raise, ret. simpl.
    destruct (negb _); simpl.
    + eexists. rewrite <- app_assoc. reflexivity.
    + exists []. reflexivity.
  - rewrite render_env_width. reflexivity.
Qed.

(** ** The retried call to the service *)

Lemma world_eq f c t f' c' t' :
  f = f' -> c = c' -> t = t' -> mkWorld f c t = mkWorld f' c' t'.
Proof. intros -> -> ->. reflexivity. Qed.

(** [k] failures, then an answer, within the five attempts. *)
Lemma retrying_answer ext prompt mt ot k :
  forall fuel an w,
    (k < fuel)%nat -> (an + k <= 5)%nat ->
    fails_for ext (calls w) k prompt mt ->
    service ext (calls w + k) prompt mt = Resp ot ->
    retrying ext fuel an prompt mt w
    = (Ok (py_strip (default [] ot)),
       mkWorld (files w) (calls w + k + 1)
         (trace w ++ failed_attempts ext (calls w) an k prompt mt
                  ++ [EvService prompt mt])).
Proof.
  induction k as [|k IH]; intros fuel an w Hfuel Han Hfail Hok.
  - destruct fuel as [|fuel]; [lia|].
    rewrite Nat.add_0_r in Hok.
    unfold retrying, bind, call_gpt5_once, bind, responses_create, ret.
    rewrite Hok. simpl. f_equal. apply world_eq; [reflexivity | lia | reflexivity].
  - destruct fuel as [|fuel]; [lia|].
    destruct (Hfail 0%nat) as [e He]; [lia|]. rewrite Nat.add_0_r in He.
    assert (Hstop : stop_after_attempt an = false).
    { unfold stop_after_attempt. apply Nat.leb_gt. lia. }
    cbn [retrying]. unfold bind at 1. unfold call_gpt5_once at 1.
    unfold bind at 1. unfold responses_create at 1. rewrite He.
    cbn [ret]. rewrite Hstop. unfold bind at 1. unfold emit at 1.
    cbn [calls files trace].
    rewrite (IH fuel (S an)
               (mkWorld (files w) (S (calls w))
                  ((trace w ++ [EvService prompt mt])
                   ++ [EvSleep (wait_exponential_jitter an
                                  (jitter ext (S (calls w))))]))).
    + cbn [calls files trace failed_attempts]. f_equal.
      apply world_eq; [reflexivity | lia |].
      rewrite <- !app_assoc. reflexivity.
    + lia.
    + lia.
    + intros j Hj. cbn [calls]. destruct (Hfail (S j)) as [e' He']; [lia|].
      exists e'. rewrite <- He'. f_equal. lia.
    + cbn [calls]. rewrite <- Hok. f_equal. lia.
Qed.

(** Failures on every attempt up to the fifth. *)
Lemma retrying_exhausted ext prompt mt k :
  forall fuel an w,
    (k < fuel)%nat -> (an + k = 5)%nat ->
    fails_for ext (calls w) (S k) prompt mt ->
    retrying ext fuel an prompt mt w
    = (Raise RetryError,
       mkWorld (files w) (calls w + k + 1)
         (trace w ++ failed_attempts ext (calls w) an k prompt mt
                  ++ [EvService prompt mt])).
Proof.
  induction k as [|k IH]; intros fuel an w Hfuel Han Hfail.
  - destruct fuel as [|fuel]; [lia|].
    destruct (Hfail 0%nat) as [e He]; [lia|]. rewrite Nat.add_0_r in He.
    assert (Hstop : stop_after_attempt an = true).
    { unfold stop_after_attempt. apply Nat.leb_le. lia. }
    unfold retrying, bind, call_gpt5_once, bind, responses_create, ret, raise.
    rewrite He, Hstop. simpl. f_equal.
    apply world_eq; [reflexivity | lia | reflexivity].
  - destruct fuel as [|fuel]; [lia|].
    destruct (Hfail 0%nat) as [e He]; [lia|]. rewrite Nat.add_0_r in He.
    assert (Hstop : stop_after_attempt an = false).
    { unfold stop_after_attempt. apply Nat.leb_gt. lia. }
    cbn [retrying]. unfold bind at 1. unfold call_gpt5_once at 1.
    unfold bind at 1. unfold responses_create at 1. rewrite He.
    cbn [ret]. rewrite Hstop. unfold bind at 1. unfold emit at 1.
    cbn [calls files trace].
    rewrite (IH fuel (S an)
               (mkWorld (files w) (S (calls w))
                  ((trace w ++ [EvService prompt mt])
                   ++ [EvSleep (wait_exponential_jitter an
                                  (jitter ext (S (calls w))))]))).
    + cbn [calls files trace failed_attempts]. f_equal.
      apply world_eq; [reflexivity | lia |].
      rewrite <- !app_assoc. reflexivity.
    + lia.
    + lia.
    + intros j Hj. cbn [calls]. destruct (Hfail (S j)) as [e' He']; [lia|].
      exists e'. rewrite <- He'. f_equal. lia.
Qed.




(** ** The per-page step *)


Lemma load_page_ok (pages : list SourcePage) idx page w :
  1 <= idx -> pages !! Z.to_nat (idx - 1) = Some page ->
  load_page pages (idx - 1) w = (Ok page, w).
Proof.
  intros Hidx Hp. pose proof (lookup_lt_Some _ _ _ Hp) as Hlt.
  unfold load_page.
  assert ((Z.of_nat (length pages) <=? idx - 1) = false) as ->
    by (apply Z.leb_gt; lia).
  assert ((Z.of_nat (length pages) =? 0) = false) as ->
    by (apply Z.eqb_neq; lia).
  simpl. rewrite Z.mod_small by lia. rewrite Hp. reflexivity.
Qed.

Lemma join_parts_snoc ps x :
  ps <> [] -> join_parts (ps ++ [x]) = join_parts ps ++ "/"%char :: x.
Proof.
  induction ps as [|c ps IH]; [congruence|]. intros _.
  destruct ps as [|d ps]; [reflexivity|].
  change (join_parts ((c :: d :: ps) ++ [x]))
    with (c ++ "/"%char :: join_parts ((d :: ps) ++ [x])).
  rewrite IH by discriminate.
  change (join_parts (c :: d :: ps)) with (c ++ "/"%char :: join_parts (d :: ps)).
  rewrite <- app_assoc. reflexivity.
Qed.

(** Joining a single component puts it after the directory. *)
Lemma path_join_plain p name :
  root_of name = [] -> components name = [name] ->
  path_join p name = mkPath (path_root p) (path_parts p ++ [name])
  /\ path_str (path_join p name) = dir_prefix p ++ name
  /\ dir_prefix (path_join p name) = dir_prefix p ++ name ++ ["/"%char].
Proof.
  intros Hr Hc. unfold path_join. rewrite Hr, Hc.
  split; [reflexivity|].
  unfold path_str, dir_prefix. cbn [path_root path_parts].
  destruct (path_parts p) as [|c ps] eqn:Ep.
  - cbn [app join_parts]. rewrite app_nil_r.
    destruct (path_root p); split; reflexivity.
  - pose proof (join_parts_snoc (c :: ps) name ltac:(discriminate)) as Hj.
    cbn [app] in Hj |- *.
    destruct (path_root p); rewrite !Hj, <- ?app_assoc; cbn [app];
      rewrite <- ?app_assoc; split; reflexivity.
Qed.



(** A cache hit: the stored text is read, nothing is asked of the
    service. *)
Lemma note_text_hit ext a page idx w stored :
  force a = false -> files w !! note_path a idx = Some stored ->
  note_text ext a page idx w
  = (Ok (universal_newlines stored),
     mkWorld (files w) (calls w) (trace w ++ [EvReadText (note_path a idx)])).
Proof.
  intros Hf Hs. unfold note_text, bind, exists_file, read_text.
  rewrite Hf, Hs. rewrite bool_decide_eq_true_2 by (eexists; reflexivity).
  cbn [negb andb]. rewrite Hs. reflexivity.
Qed.

Lemma note_text_generates ext a page idx w :
  force a = true \/ files w !! note_path a idx = None ->
  note_text ext a page idx w = generate_note ext a page idx w.
Proof.
  intros H. unfold note_text, bind, exists_file.
  destruct H as [-> | H]; [reflexivity|].
  rewrite H. rewrite bool_decide_eq_false_2 by (intros [x Hx]; discriminate).
  rewrite andb_false_r. reflexivity.
Qed.







(** ** The annotation cache *)

Example universal_newlines_crlf :
  universal_newlines (txt "a" ++ [ascii_of_N 13; newline] ++ txt "b")
  = txt "a" ++ newline :: txt "b".
Proof. reflexivity. Qed.




(** ** Retries and the end of the run *)



(** * Further properties of the program *)

(** ** Stripping *)

Lemma lstrip_by_idem blank s :
  lstrip_by blank (lstrip_by blank s) = lstrip_by blank s.
Proof.
  induction s as [|c s IH]; [reflexivity|]. simpl.
  destruct (blank c) eqn:Hc; [exact IH|]. simpl. rewrite Hc. reflexivity.
Qed.

Lemma lstrip_by_head blank s :
  forall c r, lstrip_by blank s = c :: r -> blank c = false.
Proof.
  induction s as [|d s IH]; intros c r; simpl; [discriminate|].
  destruct (blank d) eqn:Hd; [apply IH|]. intros [= <- <-]. exact Hd.
Qed.

Lemma lstrip_by_fixed blank s :
  (forall c r, s = c :: r -> blank c = false) -> lstrip_by blank s = s.
Proof.
  destruct s as [|c s]; [reflexivity|]. intros H. simpl.
  rewrite (H c s eq_refl). reflexivity.
Qed.

(** A stripped text begins and ends with a character that is not a
    blank. *)
Lemma strip_by_ends blank s :
  (forall c r, strip_by blank s = c :: r -> blank c = false)
  /\ (forall r c, strip_by blank s = r ++ [c] -> blank c = false).
Proof.
  unfold strip_by.
  destruct (lstrip_by_suffix blank (rev (lstrip_by blank s))) as [l [E Hl]].
  set (u := lstrip_by blank (rev (lstrip_by blank s))) in *.
  assert (Et : lstrip_by blank s = rev u ++ rev l).
  { rewrite <- rev_app_distr, <- E, rev_involutive. reflexivity. }
  split.
  - intros c r Hr. apply (lstrip_by_head blank s c (r ++ rev l)).
    rewrite Et, Hr. reflexivity.
  - intros r c Hr. apply (f_equal (@rev _)) in Hr.
    rewrite rev_involutive, rev_app_distr in Hr. simpl in Hr.
    apply (lstrip_by_head blank (rev (lstrip_by blank s)) c (rev r)).
    exact Hr.
Qed.

Lemma strip_by_fixed blank s :
  (forall c r, s = c :: r -> blank c = false) ->
  (forall r c, s = r ++ [c] -> blank c = false) ->
  strip_by blank s = s.
Proof.
  intros Hh Hl. unfold strip_by. rewrite (lstrip_by_fixed blank s Hh).
  rewrite lstrip_by_fixed; [apply rev_involutive|].
  intros c r Hr. apply (Hl (rev r) c).
  rewrite <- (rev_involutive s), Hr. reflexivity.
Qed.

Lemma strip_by_idem blank s :
  strip_by blank (strip_by blank s) = strip_by blank s.
Proof.
  destruct (strip_by_ends blank s) as [Hh Hl].
  apply strip_by_fixed; assumption.
Qed.

Lemma py_strip_trimmed s : trimmed (py_strip s).
Proof. apply strip_by_ends. Qed.

(** ** extract_text *)

(** X1: the extracted text begins and ends with no white space and
    stripping it again changes nothing; it is the stripped primary text
    whenever that is not empty, otherwise the stripped join of the block
    texts; so it is empty exactly when both are blank. *)
Theorem extract_text_trimmed (page : SourcePage) :
  trimmed (extract_text page)
  /\ py_strip (extract_text page) = extract_text page
  /\ (py_strip (page_text page) <> [] ->
      extract_text page = py_strip (page_text page))
  /\ (py_strip (page_text page) = [] ->
      extract_text page
      = py_strip (join_lines (omap id (page_blocks page))))
  /\ (extract_text page = []
      <-> py_strip (page_text page) = []
          /\ py_strip (join_lines (omap id (page_blocks page))) = []).
Proof.
  unfold extract_text, py_join_nl.
  destruct (py_strip (page_text page)) as [|c t] eqn:E.
  - split; [apply py_strip_trimmed|]. split; [apply strip_by_idem|].
    split; [congruence|]. split; [reflexivity|]. tauto.
  - split; [rewrite <- E; apply py_strip_trimmed|].
    split; [rewrite <- E; apply strip_by_idem|].
    split; [reflexivity|]. split; [discriminate|].
    split; [discriminate | intros [H _]; discriminate].
Qed.

Lemma extract_text_trimmed_witness :
  extract_text (mkPage 100 50 (txt "  ") [Some (txt " a "); None; Some (txt "b ")])
  = py_strip (join_lines (omap id [Some (txt " a "); None; Some (txt "b ")]))
  /\ extract_text (mkPage 100 50 (txt " Slide one ") []) = txt "Slide one".
Proof.
  split.
  - apply (proj1 (proj2 (proj2 (proj2 (extract_text_trimmed
             (mkPage 100 50 (txt "  ")
                [Some (txt " a "); None; Some (txt "b ")])))))).
    reflexivity.
  - rewrite (proj1 (proj2 (proj2 (extract_text_trimmed
               (mkPage 100 50 (txt " Slide one ") []))))).
    + reflexivity.
    + vm_compute. discriminate.
Defined.

(** ** call_gpt5 under any service *)

Lemma count_events_app p t1 t2 :
  count_events p (t1 ++ t2) = (count_events p t1 + count_events p t2)%nat.
Proof. unfold count_events. rewrite List.filter_app, length_app. reflexivity. Qed.

Lemma failed_attempts_events ext n an k prompt mt :
  forallb is_attempt_event (failed_attempts ext n an k prompt mt) = true
  /\ count_events is_service (failed_attempts ext n an k prompt mt) = k
  /\ count_events is_sleep (failed_attempts ext n an k prompt mt) = k.
Proof.
  revert n an. induction k as [|k IH]; intros n an.
  - repeat split.
  - destruct (IH (S n) (S an)) as (H1 & H2 & H3).
    cbn [failed_attempts]. repeat split.
    + cbn [forallb]. rewrite H1. reflexivity.
    + unfold count_events in *. cbn. rewrite H2. reflexivity.
    + unfold count_events in *. cbn. rewrite H3. reflexivity.
Qed.

(** Among the next [n + 1] answers either one is not an exception, or
    all are. *)
Lemma first_answer ext c prompt mt n :
  (exists k ot, (k <= n)%nat /\ fails_for ext c k prompt mt
                /\ service ext (c + k) prompt mt = Resp ot)
  \/ fails_for ext c (S n) prompt mt.
Proof.
  induction n as [|n IH].
  - destruct (service ext (c + 0) prompt mt) as [ot|e] eqn:E.
    + left. exists 0%nat, ot. split; [lia|]. split; [|exact E].
      intros j Hj. lia.
    + right. intros j Hj. assert (j = 0%nat) as -> by lia. eauto.
  - destruct IH as [(k & ot & Hk & Hf & Hr) | Hf].
    + left. exists k, ot. split; [lia|]. split; assumption.
    + destruct (service ext (c + S n) prompt mt) as [ot|e] eqn:E.
      * left. exists (S n), ot. split; [lia|]. split; assumption.
      * right. intros j Hj. destruct (decide (j = S n)) as [-> | Hne].
        -- eauto.
        -- apply Hf. lia.
Qed.

(** What one call of [call_gpt5] does, whatever the service answers. *)
Lemma call_gpt5_outcome ext prompt mt w :
  exists res evs,
    call_gpt5 ext prompt mt w
    = (res, mkWorld (files w) (calls w + count_events is_service evs)
                    (trace w ++ evs))
    /\ forallb is_attempt_event evs = true
    /\ (1 <= count_events is_service evs <= 5)%nat
    /\ count_events is_service evs = S (count_events is_sleep evs)
    /\ (forall e, res = Raise e ->
          e = RetryError /\ fails_for ext (calls w) 5 prompt mt)
    /\ (forall t, res = Ok t ->
          exists k ot, (k <= 4)%nat /\ fails_for ext (calls w) k prompt mt
                       /\ service ext (calls w + k) prompt mt = Resp ot
                       /\ t = py_strip (default [] ot)).
Proof.
  destruct (first_answer ext (calls w) prompt mt 4)
    as [(k & ot & Hk & Hf & Hr) | Hf].
  - exists (Ok (py_strip (default [] ot))),
      (failed_attempts ext (calls w) 1 k prompt mt ++ [EvService prompt mt]).
    destruct (failed_attempts_events ext (calls w) 1 k prompt mt)
      as (H1 & H2 & H3).
    split.
    { unfold call_gpt5.
      rewrite (retrying_answer ext prompt mt ot k 5 1 w) by (assumption || lia).
      f_equal. apply world_eq; [reflexivity | | reflexivity].
      rewrite count_events_app, H2. cbn. lia. }
    rewrite forallb_app, H1, !count_events_app, H2, H3. cbn.
    split; [reflexivity|]. split; [lia|]. split; [lia|].
    split; [discriminate|].
    intros t [= <-]. exists k, ot. repeat split; assumption.
  - exists (Raise RetryError),
      (failed_attempts ext (calls w) 1 4 prompt mt ++ [EvService prompt mt]).
    destruct (failed_attempts_events ext (calls w) 1 4 prompt mt)
      as (H1 & H2 & H3).
    split.
    { unfold call_gpt5.
      rewrite (retrying_exhausted ext prompt mt 4 5 1 w) by (assumption || lia).
      f_equal. apply world_eq; [reflexivity | | reflexivity].
      rewrite count_events_app, H2. cbn. lia. }
    rewrite forallb_app, H1, !count_events_app, H2, H3. cbn.
    split; [reflexivity|]. split; [lia|]. split; [lia|].
    split; [|discriminate].
    intros e [= <-]. split; [reflexivity | exact Hf].
Qed.

(** X2: whatever the service answers, one call of [call_gpt5] sends at
    least one and at most five requests, waits exactly once between two
    consecutive requests, leaves the files alone and adds nothing else
    to the trace; it raises nothing but [RetryError], and that only when
    all five requests raised; a text it returns is the stripped answer
    of the first request that did not raise, so it begins and ends with
    no white space. *)
Theorem call_gpt5_bounded (ext : Collaborators) (prompt : text)
  (max_tokens : Z) (w : World) :
  let res := fst (call_gpt5 ext prompt max_tokens w) in
  let w' := snd (call_gpt5 ext prompt max_tokens w) in
  files w' = files w
  /\ (exists evs,
        trace w' = trace w ++ evs
        /\ forallb is_attempt_event evs = true
        /\ calls w' = (calls w + count_events is_service evs)%nat
        /\ count_events is_service evs = S (count_events is_sleep evs))
  /\ (calls w + 1 <= calls w' <= calls w + 5)%nat
  /\ (forall e, res = Raise e ->
        e = RetryError /\ fails_for ext (calls w) 5 prompt max_tokens)
  /\ (forall t, res = Ok t ->
        trimmed t
        /\ exists k ot,
             (k <= 4)%nat /\ fails_for ext (calls w) k prompt max_tokens
             /\ service ext (calls w + k) prompt max_tokens = Resp ot
             /\ t = py_strip (default [] ot)).
Proof.
  destruct (call_gpt5_outcome ext prompt max_tokens w)
    as (res & evs & E & Hev & Hn & Hs & Hraise & Hok).
  rewrite E. cbn [fst snd files calls trace].
  split; [reflexivity|]. split.
  { exists evs. repeat split; assumption. }
  split; [lia|]. split; [exact Hraise|].
  intros t Ht. destruct (Hok t Ht) as (k & ot & Hk & Hf & Hr & Et).
  split.
  - rewrite Et. apply py_strip_trimmed.
  - exists k, ot. repeat split; assumption.
Qed.

Lemma call_gpt5_bounded_witness :
  fails_for (sample_ext 5 (txt " ok ") 0) 0 5 (txt "prompt") 2000.
Proof.
  exact (proj2 (proj1 (proj2 (proj2 (proj2
           (call_gpt5_bounded (sample_ext 5 (txt " ok ") 0) (txt "prompt")
              2000 empty_world)))) RetryError eq_refl)).
Defined.

(** ** render_md_to_pdf *)

(** X3: the renderer is started once, on the UTF-8 bytes of the text and
    with the environment of the process in which only NOTE_WIDTH and
    NOTE_HEIGHT are set; with exit status 0 its output is returned;
    with any other status its error output is passed on and
    [RuntimeError] is raised; no file is written and the service is not
    called either way. *)
Theorem render_md_to_pdf_outcome (ext : Collaborators)
  (markdown script : text) (r : Rect) (w : World) :
  let p := run_node ext script (encode_utf8 markdown) (render_env ext r) in
  let res := fst (render_md_to_pdf ext markdown script r w) in
  let w' := snd (render_md_to_pdf ext markdown script r w) in
  files w' = files w /\ calls w' = calls w
  /\ (returncode p = 0 ->
      res = Ok (stdout p)
      /\ trace w'
         = trace w ++ [EvNode script (encode_utf8 markdown) (render_env ext r)])
  /\ (returncode p <> 0 ->
      res = Raise (RuntimeError "render-note.js failed")
      /\ trace w'
         = trace w ++ [EvNode script (encode_utf8 markdown) (render_env ext r);
                       EvStderr (stderr p)])
  /\ (forall k, k <> txt "NOTE_WIDTH" -> k <> txt "NOTE_HEIGHT" ->
        render_env ext r !! k = environ ext !! k).
Proof.
  intros p res w'. subst res w'.
  unfold render_md_to_pdf, bind, emit, raise, ret. cbn [files calls trace].
  fold p. destruct (Z.eqb_spec (returncode p) 0) as [E | E]; cbn [negb fst snd files calls trace].
  - split; [reflexivity|]. split; [reflexivity|].
    split; [intros _; split; reflexivity|]. split; [congruence|].
    intros k Hw Hh. unfold render_env. rewrite !lookup_insert_ne by congruence.
    reflexivity.
  - split; [reflexivity|]. split; [reflexivity|].
    split; [congruence|].
    split; [intros _; split; [reflexivity | rewrite <- app_assoc; reflexivity]|].
    intros k Hw Hh. unfold render_env. rewrite !lookup_insert_ne by congruence.
    reflexivity.
Qed.

Lemma render_md_to_pdf_outcome_witness :
  fst (render_md_to_pdf (sample_ext 0 [] 3) (txt "note")
         (txt "render/render-note.js") (mkRect 0 0 100 50) empty_world)
  = Raise (RuntimeError "render-note.js failed")
  /\ fst (render_md_to_pdf (sample_ext 0 [] 0) (txt "note")
            (txt "render/render-note.js") (mkRect 0 0 100 50) empty_world)
     = Ok (txt "%PDF-1.7").
Proof.
  split.
  - apply (proj1 (proj2 (proj2 (proj2 (render_md_to_pdf_outcome
             (sample_ext 0 [] 3) (txt "note") (txt "render/render-note.js")
             (mkRect 0 0 100 50) empty_world)))));
      vm_compute; discriminate.
  - apply (proj1 (proj2 (proj2 (render_md_to_pdf_outcome
             (sample_ext 0 [] 0) (txt "note") (txt "render/render-note.js")
             (mkRect 0 0 100 50) empty_world)))).
    reflexivity.
Defined.

(** ** Printing and reading integers *)

Lemma of_uint_acc_value d :
  forall acc, Z.pos (Pos.of_uint_acc d acc) = uint_value d (Z.pos acc).
Proof.
  induction d as [|d IH|d IH|d IH|d IH|d IH|d IH|d IH|d IH|d IH|d IH];
    intros acc; cbn [Pos.of_uint_acc uint_value];
    [reflexivity | rewrite IH; f_equal; lia ..].
Qed.

Lemma of_uint_value d : Z.of_N (Pos.of_uint d) = uint_value d 0.
Proof.
  induction d as [|d IH|d IH|d IH|d IH|d IH|d IH|d IH|d IH|d IH|d IH];
    cbn [Pos.of_uint uint_value];
    [reflexivity | exact IH | cbn [Z.of_N]; rewrite of_uint_acc_value; reflexivity ..].
Qed.

Lemma int_digits_uint d :
  forall acc seen,
    d <> Decimal.Nil \/ seen = true ->
    int_digits acc seen (txt (NilEmpty.string_of_uint d))
    = Some (uint_value d acc).
Proof.
  induction d as [|d IH|d IH|d IH|d IH|d IH|d IH|d IH|d IH|d IH|d IH];
    intros acc seen H.
  - destruct H as [H | ->]; [congruence | reflexivity].
  - apply (IH (10 * acc + 0) true). right. reflexivity.
  - apply (IH (10 * acc + 1) true). right. reflexivity.
  - apply (IH (10 * acc + 2) true). right. reflexivity.
  - apply (IH (10 * acc + 3) true). right. reflexivity.
  - apply (IH (10 * acc + 4) true). right. reflexivity.
  - apply (IH (10 * acc + 5) true). right. reflexivity.
  - apply (IH (10 * acc + 6) true). right. reflexivity.
  - apply (IH (10 * acc + 7) true). right. reflexivity.
  - apply (IH (10 * acc + 8) true). right. reflexivity.
  - apply (IH (10 * acc + 9) true). right. reflexivity.
Qed.

Lemma digits_uint d : forallb is_digit (txt (NilEmpty.string_of_uint d)) = true.
Proof.
  induction d as [|d IH|d IH|d IH|d IH|d IH|d IH|d IH|d IH|d IH|d IH];
    [reflexivity | exact IH ..].
Qed.

(** [str(z)] for [z >= 0]: a non-empty run of digits that reads as
    [z]. *)
Lemma py_str_int_nonneg z :
  0 <= z ->
  py_str_int z <> [] /\ forallb is_digit (py_str_int z) = true
  /\ forall seen, int_digits 0 seen (py_str_int z) = Some z.
Proof.
  intros Hz. unfold py_str_int. destruct z as [|p|p]; [|  |lia].
  - split; [discriminate|]. split; [reflexivity|]. intros seen. reflexivity.
  - cbn [Z.to_int NilZero.string_of_int].
    pose proof (DecimalPos.Unsigned.of_to p) as Hp.
    pose proof (of_uint_value (Pos.to_uint p)) as Hv. rewrite Hp in Hv.
    cbn [Z.of_N] in Hv.
    destruct (Pos.to_uint p) as [|d|d|d|d|d|d|d|d|d|d] eqn:E;
      [discriminate Hp | ..];
      (split; [discriminate|]);
      (split; [apply (digits_uint)|]);
      intros seen; unfold NilZero.string_of_uint;
      rewrite int_digits_uint by (left; discriminate);
      rewrite <- Hv; reflexivity.
Qed.




(** Reading zeros, then the digits of [n]. *)
Lemma int_digits_padded k n seen :
  0 <= n -> int_digits 0 seen (replicate k "0"%char ++ py_str_int n) = Some n.
Proof.
  intros Hn. destruct (py_str_int_nonneg n Hn) as (_ & _ & Hv).
  revert seen. induction k as [|k IH]; intros seen; [apply Hv|].
  cbn. apply IH.
Qed.

Lemma digits_padded k n :
  0 <= n -> forallb is_digit (replicate k "0"%char ++ py_str_int n) = true.
Proof.
  intros Hn. destruct (py_str_int_nonneg n Hn) as (_ & Hd & _).
  rewrite forallb_app, Hd, andb_true_r.
  induction k as [|k IH]; [reflexivity | exact IH].
Qed.


(** ** The paths of the cache records *)

Lemma py_format_03d_inj i j : py_format_03d i = py_format_03d j -> i = j.
Proof.
  unfold py_format_03d.
  destruct (Z.ltb_spec i 0) as [Hi | Hi], (Z.ltb_spec j 0) as [Hj | Hj];
    cbn [app txt String.list_ascii_of_string]; intros H.
  - injection H as H. apply (f_equal (int_digits 0 false)) in H.
    rewrite !int_digits_padded in H by lia. injection H as H. lia.
  - exfalso.
    pose proof (digits_padded (3 - length (@nil ascii)
                               - length (py_str_int (Z.abs j))) (Z.abs j)
                  ltac:(lia)) as Hd.
    rewrite <- H in Hd. discriminate.
  - exfalso.
    pose proof (digits_padded (3 - length (@nil ascii)
                               - length (py_str_int (Z.abs i))) (Z.abs i)
                  ltac:(lia)) as Hd.
    rewrite H in Hd. discriminate.
  - apply (f_equal (int_digits 0 false)) in H.
    rewrite !int_digits_padded in H by lia. injection H as H. lia.
Qed.

Lemma py_split_no_sep sep s :
  forallb (fun c => negb (chr_eqb c sep)) s = true -> py_split sep s = [s].
Proof.
  induction s as [|c s IH]; [reflexivity|]. simpl. intros H.
  apply andb_true_iff in H as [Hc Hs]. apply negb_true_iff in Hc.
  rewrite Hc, (IH Hs). reflexivity.
Qed.

Lemma digit_not_slash c : is_digit c = true -> chr_eqb c "/" = false.
Proof.
  destruct c as [[] [] [] [] [] [] [] []]; vm_compute; congruence.
Qed.

(** The zero-padded index holds no slash. *)
Lemma format_03d_plain z :
  forallb (fun c => negb (chr_eqb c "/")) (py_format_03d z) = true.
Proof.
  unfold py_format_03d. rewrite !forallb_app.
  apply andb_true_iff. split; [destruct (z <? 0); reflexivity|].
  apply andb_true_iff. split.
  - match goal with |- context [replicate ?n _] => generalize n as k end.
    induction k as [|k IH]; [reflexivity | exact IH].
  - destruct (py_str_int_nonneg (Z.abs z) ltac:(lia)) as (_ & Hd & _).
    rewrite forallb_forall in *. intros c Hc.
    apply negb_true_iff, digit_not_slash, Hd, Hc.
Qed.

(** The name of the directory of a page is a single component. *)
Lemma slide_component idx :
  root_of (txt "slide_" ++ py_format_03d idx) = []
  /\ components (txt "slide_" ++ py_format_03d idx)
     = [txt "slide_" ++ py_format_03d idx].
Proof.
  split; [reflexivity|].
  unfold components. rewrite py_split_no_sep.
  - cbn [List.filter]. rewrite !bool_decide_eq_false_2 by discriminate.
    reflexivity.
  - rewrite forallb_app, format_03d_plain. reflexivity.
Qed.

(** The two records of a page lie in the directory of the page, which
    lies in the cache directory of the document. *)
Lemma record_paths a idx :
  note_path a idx
  = dir_prefix (cache_dir (cache_root a) (course_name a) (input_pdf a))
    ++ txt "slide_" ++ py_format_03d idx ++ txt "/note.md"
  /\ fragment_path a idx
     = dir_prefix (cache_dir (cache_root a) (course_name a) (input_pdf a))
       ++ txt "slide_" ++ py_format_03d idx ++ txt "/note.pdf".
Proof.
  unfold note_path, fragment_path, md_path, pdf_path, slide_dir.
  destruct (slide_component idx) as [Hr Hc].
  destruct (path_join_plain
              (cache_dir (cache_root a) (course_name a) (input_pdf a))
              _ Hr Hc) as (_ & _ & Hd).
  set (sd := path_join (cache_dir (cache_root a) (course_name a) (input_pdf a))
                       (txt "slide_" ++ py_format_03d idx)) in *.
  destruct (path_join_plain sd (txt "note.md") eq_refl eq_refl) as (_ & -> & _).
  destruct (path_join_plain sd (txt "note.pdf") eq_refl eq_refl) as (_ & -> & _).
  rewrite Hd, <- !app_assoc. split; reflexivity.
Qed.

(** A fragment and a note never share a path. *)
Lemma fragment_path_not_note a i j : fragment_path a i <> note_path a j.
Proof.
  destruct (record_paths a i) as [_ ->]. destruct (record_paths a j) as [-> _].
  intros H. do 2 apply app_inv_head in H.
  apply (f_equal (@rev _)) in H.
  rewrite !rev_app_distr in H. vm_compute in H. discriminate.
Qed.

Lemma note_path_inj a i j : note_path a i = note_path a j -> i = j.
Proof.
  destruct (record_paths a i) as [-> _]. destruct (record_paths a j) as [-> _].
  intros H. do 2 apply app_inv_head in H. apply app_inv_tail in H.
  apply py_format_03d_inj, H.
Qed.

Lemma fragment_path_inj a i j : fragment_path a i = fragment_path a j -> i = j.
Proof.
  destruct (record_paths a i) as [_ ->]. destruct (record_paths a j) as [_ ->].
  intros H. do 2 apply app_inv_head in H. apply app_inv_tail in H.
  apply py_format_03d_inj, H.
Qed.

(** ** One page, whatever the collaborators do *)

Lemma count_events_none p q evs :
  forallb q evs = true -> (forall e, q e = true -> p e = false) ->
  count_events p evs = 0%nat.
Proof.
  intros Hq Hpq. unfold count_events.
  induction evs as [|e evs IH]; [reflexivity|].
  simpl in Hq. apply andb_true_iff in Hq as [He Hq]. simpl.
  rewrite (Hpq e He). apply IH, Hq.
Qed.

Lemma attempt_events_note evs :
  forallb is_attempt_event evs = true -> forallb is_note_event evs = true.
Proof.
  rewrite !forallb_forall. intros H e He. specialize (H e He).
  destruct e; try discriminate; reflexivity.
Qed.

Lemma load_page_cases (pages : list SourcePage) i w :
  load_page pages i w = (Raise IndexError, w)
  \/ exists page, load_page pages i w = (Ok page, w).
Proof.
  unfold load_page.
  destruct ((Z.of_nat (length pages) <=? i) || (Z.of_nat (length pages) =? 0));
    [left; reflexivity|].
  destruct (pages !! Z.to_nat (i mod Z.of_nat (length pages)));
    [right; eauto | left; reflexivity].
Qed.

Lemma generate_note_outcome ext a page idx w :
  exists res fs' evs,
    generate_note ext a page idx w
    = (res, mkWorld fs' (calls w + count_events is_service evs)
                    (trace w ++ evs))
    /\ forallb is_note_event evs = true
    /\ (count_events is_service evs <= 5)%nat
    /\ (forall p, p <> note_path a idx -> fs' !! p = files w !! p)
    /\ (forall p, is_Some (files w !! p) -> is_Some (fs' !! p))
    /\ (forall t, res = Ok t -> is_Some (fs' !! note_path a idx))
    /\ (forall e, res = Raise e -> e = RetryError /\ fs' = files w).
Proof.
  unfold generate_note, bind. fold (page_prompt a page idx).
  destruct (call_gpt5_outcome ext (page_prompt a page idx) 2000 w)
    as (res0 & evs0 & E & Hev & Hn & _ & Hraise & _).
  rewrite E. destruct res0 as [t|e].
  - set (note := format_annotation_headers (py_replace_char nbsp " " t)).
    exists (Ok note), (<[note_path a idx := note]> (files w)),
      (evs0 ++ [EvWriteText (note_path a idx) note]).
    split.
    { unfold write_text, ret. cbn [files calls trace]. f_equal.
      apply world_eq; [reflexivity | | rewrite <- app_assoc; reflexivity].
      rewrite count_events_app. cbn. lia. }
    split; [rewrite forallb_app, (attempt_events_note evs0 Hev); reflexivity|].
    split; [rewrite count_events_app; cbn; lia|].
    split; [intros p Hp; apply lookup_insert_ne; congruence|].
    split.
    { intros p [x Hx]. destruct (decide (note_path a idx = p)) as [<-|Hne].
      - rewrite lookup_insert_eq. eauto.
      - rewrite lookup_insert_ne by exact Hne. eauto. }
    split; [intros t' _; rewrite lookup_insert_eq; eauto|].
    discriminate.
  - exists (Raise e), (files w), evs0.
    split; [reflexivity|].
    split; [apply attempt_events_note, Hev|].
    split; [lia|]. split; [reflexivity|]. split; [tauto|].
    split; [discriminate|].
    intros e' [= <-]. split; [apply (Hraise e eq_refl) | reflexivity].
Qed.

Lemma note_text_outcome ext a page idx w :
  exists res fs' evs,
    note_text ext a page idx w
    = (res, mkWorld fs' (calls w + count_events is_service evs)
                    (trace w ++ evs))
    /\ forallb is_note_event evs = true
    /\ (count_events is_service evs <= 5)%nat
    /\ (forall p, p <> note_path a idx -> fs' !! p = files w !! p)
    /\ (forall p, is_Some (files w !! p) -> is_Some (fs' !! p))
    /\ (forall t, res = Ok t -> is_Some (fs' !! note_path a idx))
    /\ (forall e, res = Raise e -> e = RetryError /\ fs' = files w)
    /\ (force a = false -> is_Some (files w !! note_path a idx) ->
        fs' = files w /\ count_events is_service evs = 0%nat
        /\ exists t, res = Ok t).
Proof.
  destruct (force a) eqn:Hf.
  - rewrite (note_text_generates ext a page idx w (or_introl Hf)).
    destruct (generate_note_outcome ext a page idx w)
      as (res & fs' & evs & E & H1 & H2 & H3 & H4 & H5 & H6).
    exists res, fs', evs. repeat (split; [assumption|]). discriminate.
  - destruct (files w !! note_path a idx) as [stored|] eqn:Hs.
    + exists (Ok (universal_newlines stored)), (files w),
        [EvReadText (note_path a idx)].
      split.
      { rewrite (note_text_hit ext a page idx w stored Hf Hs). f_equal.
        apply world_eq; [reflexivity | cbn; lia | reflexivity]. }
      split; [reflexivity|]. split; [cbn; lia|].
      split; [reflexivity|]. split; [tauto|].
      split; [intros t _; rewrite Hs; eauto|].
      split; [discriminate|].
      intros _ _. split; [reflexivity|]. split; [reflexivity|]. eauto.
    + rewrite (note_text_generates ext a page idx w (or_intror Hs)).
      destruct (generate_note_outcome ext a page idx w)
        as (res & fs' & evs & E & H1 & H2 & H3 & H4 & H5 & H6).
      exists res, fs', evs. repeat (split; [assumption|]).
      intros _ [x Hx]. discriminate.
Qed.

Lemma place_note_outcome ext a r note idx w :
  exists res fs' evs,
    place_note ext a r note idx w
    = (res, mkWorld fs' (calls w) (trace w ++ evs))
    /\ count_events is_node evs = 1%nat
    /\ count_events is_new_page evs = 0%nat
    /\ count_events is_save evs = 0%nat
    /\ count_events is_service evs = 0%nat
    /\ (forall p, p <> fragment_path a idx -> fs' !! p = files w !! p)
    /\ (forall p, is_Some (files w !! p) -> is_Some (fs' !! p))
    /\ (res = Ok tt -> is_Some (fs' !! fragment_path a idx))
    /\ (forall e, res = Raise e ->
          (e = RuntimeError "render-note.js failed" /\ fs' = files w)
          \/ e = FileDataError \/ e = ValueError).
Proof.
  unfold place_note, show_note, render_md_to_pdf, bind, emit, raise, ret,
    write_bytes.
  cbn [calls files trace].
  set (p := run_node ext (node_script a) (encode_utf8 note) (render_env ext r)).
  destruct (Z.eqb_spec (returncode p) 0) as [E | E]; cbn [negb].
  - set (fs' := <[fragment_path a idx := stdout p]> (files w)).
    assert (F1 : forall q, q <> fragment_path a idx -> fs' !! q = files w !! q)
      by (intros q Hq; apply lookup_insert_ne; congruence).
    assert (F2 : forall q, is_Some (files w !! q) -> is_Some (fs' !! q)).
    { intros q [x Hx]. unfold fs'.
      destruct (decide (fragment_path a idx = q)) as [<-|Hne].
      - rewrite lookup_insert_eq. eauto.
      - rewrite lookup_insert_ne by exact Hne. eauto. }
    assert (F3 : is_Some (fs' !! fragment_path a idx))
      by (unfold fs'; rewrite lookup_insert_eq; eauto).
    destruct (open_fragment ext (stdout p)); [| |destruct (rect_is_empty r)].
    + exists (Raise FileDataError), fs',
        [EvNode (node_script a) (encode_utf8 note) (render_env ext r);
         EvWriteBytes (fragment_path a idx) (stdout p)].
      split; [cbn [calls files trace]; rewrite <- !app_assoc; reflexivity|].
      do 4 (split; [reflexivity|]).
      split; [exact F1|]. split; [exact F2|]. split; [intros _; exact F3|].
      intros e [= <-]. tauto.
    + exists (Raise ValueError), fs',
        [EvNode (node_script a) (encode_utf8 note) (render_env ext r);
         EvWriteBytes (fragment_path a idx) (stdout p)].
      split; [cbn [calls files trace]; rewrite <- !app_assoc; reflexivity|].
      do 4 (split; [reflexivity|]).
      split; [exact F1|]. split; [exact F2|]. split; [intros _; exact F3|].
      intros e [= <-]. tauto.
    + exists (Raise ValueError), fs',
        [EvNode (node_script a) (encode_utf8 note) (render_env ext r);
         EvWriteBytes (fragment_path a idx) (stdout p)].
      split; [cbn [calls files trace]; rewrite <- !app_assoc; reflexivity|].
      do 4 (split; [reflexivity|]).
      split; [exact F1|]. split; [exact F2|]. split; [intros _; exact F3|].
      intros e [= <-]. tauto.
    + exists (Ok tt), fs',
        [EvNode (node_script a) (encode_utf8 note) (render_env ext r);
         EvWriteBytes (fragment_path a idx) (stdout p);
         EvShowNote r (stdout p);
         EvPrint (txt "[ok] page " ++ py_str_int idx)].
      split; [cbn [calls files trace]; rewrite <- !app_assoc; reflexivity|].
      do 4 (split; [reflexivity|]).
      split; [exact F1|]. split; [exact F2|]. split; [intros _; exact F3|].
      discriminate.
  - exists (Raise (RuntimeError "render-note.js failed")), (files w),
      [EvNode (node_script a) (encode_utf8 note) (render_env ext r);
       EvStderr (stderr p)].
    split; [cbn [calls files trace]; rewrite <- !app_assoc; reflexivity|].
    do 4 (split; [reflexivity|]).
    split; [reflexivity|]. split; [tauto|]. split; [discriminate|].
    intros e [= <-]. left. split; reflexivity.
Qed.

Lemma annotate_page_loaded ext a idx page w :
  load_page (src a) (idx - 1) w = (Ok page, w) ->
  annotate_page ext a idx w
  = match note_text ext a page idx
            (mkWorld (files w) (calls w) (trace w ++ setup_events a page idx))
    with
    | (Ok note, w') => place_note ext a (page_notes_rect a page) note idx w'
    | (Raise e, w') => (Raise e, w')
    end.
Proof.
  intros Hl. unfold annotate_page. unfold bind at 1. rewrite Hl.
  unfold bind at 1. unfold compose_page, bind, emit, ret.
  cbn [calls files trace]. unfold setup_events, page_notes_rect.
  rewrite <- app_assoc. reflexivity.
Qed.

Lemma setup_events_counts a page idx :
  count_events is_new_page (setup_events a page idx) = 1%nat
  /\ count_events is_node (setup_events a page idx) = 0%nat
  /\ count_events is_save (setup_events a page idx) = 0%nat
  /\ count_events is_service (setup_events a page idx) = 0%nat.
Proof. repeat split. Qed.

Lemma note_events_counts evs :
  forallb is_note_event evs = true ->
  count_events is_new_page evs = 0%nat
  /\ count_events is_node evs = 0%nat
  /\ count_events is_save evs = 0%nat.
Proof.
  intros H. repeat split; apply (count_events_none _ is_note_event evs H);
    intros [] He; (discriminate || reflexivity).
Qed.

(** What the body of the loop does for one page index, whatever the
    service and the renderer do. *)
Lemma annotate_page_outcome ext a idx w :
  exists res fs' evs,
    annotate_page ext a idx w
    = (res, mkWorld fs' (calls w + count_events is_service evs)
                    (trace w ++ evs))
    /\ (count_events is_service evs <= 5)%nat
    /\ count_events is_save evs = 0%nat
    /\ (count_events is_new_page evs <= 1)%nat
    /\ (count_events is_node evs <= 1)%nat
    /\ (res = Ok tt ->
        count_events is_new_page evs = 1%nat
        /\ count_events is_node evs = 1%nat
        /\ is_Some (fs' !! note_path a idx)
        /\ is_Some (fs' !! fragment_path a idx))
    /\ (forall p, p <> note_path a idx -> p <> fragment_path a idx ->
          fs' !! p = files w !! p)
    /\ (forall p, is_Some (files w !! p) -> is_Some (fs' !! p))
    /\ (forall e, res = Raise e ->
          e = IndexError \/ e = RetryError
          \/ e = RuntimeError "render-note.js failed"
          \/ e = FileDataError \/ e = ValueError)
    /\ (1 <= idx <= Z.of_nat (length (src a)) -> res <> Raise IndexError)
    /\ (force a = false -> is_Some (files w !! note_path a idx) ->
        count_events is_service evs = 0%nat
        /\ forall p, p <> fragment_path a idx -> fs' !! p = files w !! p).
Proof.
  destruct (load_page_cases (src a) (idx - 1) w) as [Hl | [page Hl]].
  - exists (Raise IndexError), (files w), [].
    split.
    { unfold annotate_page, bind. rewrite Hl. f_equal. destruct w.
      apply world_eq; [reflexivity | cbn; lia | cbn; rewrite app_nil_r; reflexivity]. }
    assert (Hvalid : 1 <= idx <= Z.of_nat (length (src a)) -> False).
    { intros [H1 H2].
      destruct (lookup_lt_is_Some_2 (src a) (Z.to_nat (idx - 1))) as [pg Hpg];
        [lia|].
      rewrite (load_page_ok (src a) idx pg w H1 Hpg) in Hl. discriminate. }
    split; [cbn; lia|]. split; [reflexivity|]. split; [cbn; lia|].
    split; [cbn; lia|]. split; [discriminate|]. split; [reflexivity|].
    split; [tauto|]. split; [intros e [= <-]; tauto|].
    split; [intros H; destruct (Hvalid H)|].
    intros _ _; split; reflexivity.
  - rewrite (annotate_page_loaded ext a idx page w Hl).
    destruct (note_text_outcome ext a page idx
                (mkWorld (files w) (calls w)
                   (trace w ++ setup_events a page idx)))
      as (res1 & fs1 & evs1 & E1 & Hn1 & Hc1 & Hf1 & Hm1 & Hok1 & Hr1 & Hhit1).
    rewrite E1. cbn [files calls trace] in *.
    destruct (setup_events_counts a page idx) as (S1 & S2 & S3 & S4).
    destruct (note_events_counts evs1 Hn1) as (N1 & N2 & N3).
    destruct res1 as [note | e].
    + destruct (place_note_outcome ext a (page_notes_rect a page) note idx
                  (mkWorld fs1 (calls w + count_events is_service evs1)
                     ((trace w ++ setup_events a page idx) ++ evs1)))
        as (res2 & fs2 & evs2 & E2 & P1 & P2 & P3 & P4 & Hf2 & Hm2 & Hok2
            & Hr2).
      rewrite E2. cbn [files calls trace] in *.
      exists res2, fs2, (setup_events a page idx ++ evs1 ++ evs2).
      rewrite !count_events_app, S1, S2, S3, S4, N1, N2, N3, P1, P2, P3, P4.
      split.
      { f_equal. apply world_eq; [reflexivity | lia |].
        rewrite <- !app_assoc. reflexivity. }
      split; [lia|]. split; [reflexivity|]. split; [lia|]. split; [lia|].
      split.
      { intros Hres. split; [reflexivity|]. split; [reflexivity|]. split.
        - apply Hm2, (Hok1 note eq_refl).
        - apply Hok2, Hres. }
      split.
      { intros p Hp1 Hp2. rewrite (Hf2 p Hp2). apply Hf1, Hp1. }
      split; [intros p Hp; apply Hm2, Hm1, Hp|].
      split.
      { intros e He. destruct (Hr2 e He) as [[-> _] | [-> | ->]]; tauto. }
      split.
      { intros _ He.
        destruct (Hr2 _ He) as [[Habs _] | [Habs | Habs]]; discriminate. }
      intros Hf Hs. destruct (Hhit1 Hf Hs) as (-> & Hz & _).
      split; [lia|]. intros p Hp. apply Hf2, Hp.
    + exists (Raise e), fs1, (setup_events a page idx ++ evs1).
      rewrite !count_events_app, S1, S2, S3, S4, N1, N2, N3.
      destruct (Hr1 e eq_refl) as [-> ->].
      split.
      { f_equal. apply world_eq; [reflexivity | lia |].
        rewrite <- !app_assoc. reflexivity. }
      split; [lia|]. split; [reflexivity|]. split; [lia|]. split; [lia|].
      split; [discriminate|]. split; [reflexivity|]. split; [tauto|].
      split; [intros e [= <-]; tauto|].
      split; [discriminate|].
      intros Hf Hs. destruct (Hhit1 Hf Hs) as (_ & Hz & _).
      split; [lia | reflexivity].
Qed.

(** ** The loop over the pages *)

Lemma for_each_cons {A} (x : A) l (body : A -> M unit) w :
  for_each (x :: l) body w
  = match body x w with
    | (Ok _, w1) => for_each l body w1
    | (Raise e, w1) => (Raise e, w1)
    end.
Proof. reflexivity. Qed.

(** The loop, whatever the collaborators do: requests, pages and
    renderings are bounded by the number of pages, nothing is saved
    inside the loop, only the records of the listed pages change, and
    no record disappears. *)
Lemma pages_loop_outcome ext a l :
  forall w,
  exists res fs' evs,
    for_each l (annotate_page ext a) w
    = (res, mkWorld fs' (calls w + count_events is_service evs)
                    (trace w ++ evs))
    /\ (count_events is_service evs <= 5 * length l)%nat
    /\ count_events is_save evs = 0%nat
    /\ (count_events is_new_page evs <= length l)%nat
    /\ (count_events is_node evs <= length l)%nat
    /\ (res = Ok tt ->
        count_events is_new_page evs = length l
        /\ count_events is_node evs = length l
        /\ forall idx, idx ∈ l -> has_records a fs' idx)
    /\ (forall p, outside_records a l p -> fs' !! p = files w !! p)
    /\ (forall p, is_Some (files w !! p) -> is_Some (fs' !! p))
    /\ (forall e, res = Raise e ->
          e = IndexError \/ e = RetryError
          \/ e = RuntimeError "render-note.js failed"
          \/ e = FileDataError \/ e = ValueError)
    /\ (Forall (valid_index a) l -> res <> Raise IndexError).
Proof.
  induction l as [|x l IH]; intros w.
  - exists (Ok tt), (files w), []. split.
    { cbn [for_each]. unfold ret. f_equal. destruct w.
      apply world_eq; [reflexivity | cbn; lia | cbn; rewrite app_nil_r; reflexivity]. }
    split; [cbn; lia|]. split; [reflexivity|]. split; [cbn; lia|].
    split; [cbn; lia|].
    split; [intros _; split; [reflexivity|split; [reflexivity|]];
            intros idx Hin; inversion Hin|].
    split; [reflexivity|]. split; [tauto|]. split; [discriminate|].
    discriminate.
  - rewrite for_each_cons.
    destruct (annotate_page_outcome ext a x w)
      as (res1 & fs1 & evs1 & E1 & C1 & S1 & N1 & R1 & Hok1 & Hf1 & Hm1
          & Hr1 & Hv1 & _).
    rewrite E1. destruct res1 as [[]|e].
    + destruct (IH (mkWorld fs1 (calls w + count_events is_service evs1)
                      (trace w ++ evs1)))
        as (res2 & fs2 & evs2 & E2 & C2 & S2 & N2 & R2 & Hok2 & Hf2 & Hm2
            & Hr2 & Hv2).
      rewrite E2. cbn [files calls trace] in *.
      destruct (Hok1 eq_refl) as (N1' & R1' & Hrec1).
      exists res2, fs2, (evs1 ++ evs2). rewrite !count_events_app.
      split.
      { f_equal. apply world_eq; [reflexivity | lia |].
        rewrite <- app_assoc. reflexivity. }
      cbn [length]. split; [lia|]. split; [lia|]. split; [lia|]. split; [lia|].
      split.
      { intros Hres. destruct (Hok2 Hres) as (N2' & R2' & Hrec2).
        split; [lia|]. split; [lia|].
        intros idx Hin. apply elem_of_cons in Hin as [-> | Hin].
        - destruct Hrec1 as [Ha Hb]. split; apply Hm2; assumption.
        - apply Hrec2, Hin. }
      split.
      { intros p Hp. rewrite Hf2.
        - destruct (Hp x) as [Hp1 Hp2]; [left|]. apply Hf1; assumption.
        - intros idx Hin. apply Hp. right. exact Hin. }
      split; [intros p Hp; apply Hm2, Hm1, Hp|].
      split; [exact Hr2|].
      intros Hval. apply Hv2. inversion Hval; assumption.
    + exists (Raise e), fs1, evs1.
      split; [reflexivity|]. cbn [length].
      split; [lia|]. split; [exact S1|]. split; [lia|]. split; [lia|].
      split; [discriminate|].
      split.
      { intros p Hp. destruct (Hp x) as [Hp1 Hp2]; [left|].
        apply Hf1; assumption. }
      split; [exact Hm1|]. split; [exact Hr1|].
      intros Hval. apply Hv1. inversion Hval; assumption.
Qed.

(** With every note cached and no forcing, the loop asks nothing of the
    service and writes nothing but fragments. *)
Lemma cached_loop ext a l :
  force a = false ->
  forall w,
    all_cached a (files w) l ->
    exists res fs' evs,
      for_each l (annotate_page ext a) w
      = (res, mkWorld fs' (calls w) (trace w ++ evs))
      /\ count_events is_service evs = 0%nat
      /\ (forall p, (forall idx, idx ∈ l -> p <> fragment_path a idx) ->
            fs' !! p = files w !! p).
Proof.
  intros Hforce. induction l as [|x l IH]; intros w Hc.
  - exists (Ok tt), (files w), []. split.
    { cbn [for_each]. unfold ret. f_equal. destruct w.
      apply world_eq; [reflexivity | reflexivity | cbn; rewrite app_nil_r; reflexivity]. }
    split; reflexivity.
  - rewrite for_each_cons.
    assert (Hx : is_Some (files w !! note_path a x)) by (apply Hc; left).
    destruct (annotate_page_outcome ext a x w)
      as (res1 & fs1 & evs1 & E1 & _ & _ & _ & _ & Hok1 & _ & _
          & _ & _ & Hhit1).
    destruct (Hhit1 Hforce Hx) as [Z1 Hf1].
    rewrite E1, Z1, Nat.add_0_r. destruct res1 as [[]|e].
    + assert (Hc1 : all_cached a fs1 l).
      { intros idx Hin. rewrite Hf1 by (apply not_eq_sym, fragment_path_not_note).
        apply Hc. right. exact Hin. }
      destruct (IH (mkWorld fs1 (calls w) (trace w ++ evs1)) Hc1)
        as (res2 & fs2 & evs2 & E2 & Z2 & Hf2).
      rewrite E2. cbn [files calls trace] in *.
      exists res2, fs2, (evs1 ++ evs2). rewrite !count_events_app, Z1, Z2.
      split; [rewrite <- app_assoc; reflexivity|]. split; [reflexivity|].
      intros p Hp. rewrite Hf2 by (intros idx Hin; apply Hp; right; exact Hin).
      apply Hf1, Hp. left.
    + exists (Raise e), fs1, evs1.
      split; [reflexivity|]. split; [exact Z1|].
      intros p Hp; apply Hf1, Hp; left.
Qed.

(** When the loop raises, it stopped at some page; every page before it
    is complete: it has its note and its fragment in the cache. *)
Lemma failed_loop ext a l :
  forall w e,
    fst (for_each l (annotate_page ext a) w) = Raise e ->
    exists before idx rest,
      l = before ++ idx :: rest
      /\ (forall j, j ∈ before ->
            has_records a (files (snd (for_each l (annotate_page ext a) w))) j)
      /\ exists evs,
           trace (snd (for_each l (annotate_page ext a) w)) = trace w ++ evs
           /\ (length before <= count_events is_new_page evs
               <= S (length before))%nat
           /\ (length before <= count_events is_node evs
               <= S (length before))%nat.
Proof.
  induction l as [|x l IH]; intros w e He.
  - cbn in He. discriminate.
  - rewrite for_each_cons in *.
    destruct (annotate_page_outcome ext a x w)
      as (res1 & fs1 & evs1 & E1 & _ & _ & N1 & R1 & Hok1 & _ & Hm1
          & Hr1 & _).
    rewrite E1 in *. destruct res1 as [[]|e1].
    + destruct (Hok1 eq_refl) as (N1' & R1' & Hrec1).
      destruct (IH _ _ He) as (before & idx & rest & -> & Hrec & evs2 & Et & Hn & Hr).
      destruct (pages_loop_outcome ext a (before ++ idx :: rest)
                  (mkWorld fs1 (calls w + count_events is_service evs1)
                     (trace w ++ evs1)))
        as (res2 & fs2 & evs2' & E2 & _ & _ & _ & _ & _ & _ & Hm2 & _).
      exists (x :: before), idx, rest. split; [reflexivity|]. split.
      * intros j Hj. apply elem_of_cons in Hj as [-> | Hj]; [|apply Hrec, Hj].
        rewrite E2. cbn [snd files]. destruct Hrec1 as [Ha Hb].
        split; apply Hm2; assumption.
      * exists (evs1 ++ evs2). rewrite Et. cbn [trace].
        rewrite !count_events_app, <- app_assoc. cbn [length].
        split; [reflexivity|]. split; [lia|]. lia.
    + cbn [fst snd] in *. injection He as ->.
      exists [], x, l. split; [reflexivity|].
      split; [intros j Hj; inversion Hj|].
      exists evs1. cbn [trace length]. split; [reflexivity|].
      split; lia.
Qed.

(** ** annotate_pdf as a whole *)

Lemma annotate_pdf_no_node ext a w :
  which_node ext = false ->
  annotate_pdf ext a w
  = (Raise (RuntimeError "Node.js not found. Install it first."), w).
Proof. intros H. unfold annotate_pdf. rewrite H. reflexivity. Qed.

Lemma annotate_pdf_with_node ext a w :
  which_node ext = true ->
  annotate_pdf ext a w
  = match for_each (pages_iter a) (annotate_page ext a) w with
    | (Ok _, w1) =>
        match pages_iter a with
        | [] => (Raise ValueError, w1)
        | _ =>
            (Ok tt,
             mkWorld (files w1) (calls w1)
               (trace w1 ++ [EvSave (output_pdf a);
                             EvPrint (txt "Saved " ++ output_pdf a)]))
        end
    | (Raise e, w1) => (Raise e, w1)
    end.
Proof.
  intros H. unfold annotate_pdf. rewrite H. cbn [negb].
  unfold bind, save_output, emit, raise.
  destruct (for_each (pages_iter a) (annotate_page ext a) w) as [[[]|e] w1];
    [|reflexivity].
  destruct (pages_iter a); [reflexivity|].
  cbn [files calls trace]. rewrite <- app_assoc. reflexivity.
Qed.

(** X5: in every run of [annotate_pdf] the output document is saved
    exactly when the run succeeds, and then once, after the last page;
    a successful run creates one new page and starts the renderer once
    for each selected page; a run never creates more pages than
    selected and sends at most five requests per selected page; without
    Node the run raises before anything happens. *)
Theorem annotate_pdf_output (ext : Collaborators) (a : Args) (w : World) :
  let res := fst (annotate_pdf ext a w) in
  let w' := snd (annotate_pdf ext a w) in
  (exists evs,
     trace w' = trace w ++ evs
     /\ (res = Ok tt <-> count_events is_save evs = 1%nat)
     /\ (res <> Ok tt -> count_events is_save evs = 0%nat)
     /\ (res = Ok tt ->
         count_events is_new_page evs = length (pages_iter a)
         /\ count_events is_node evs = length (pages_iter a)
         /\ exists evs0,
              evs = evs0 ++ [EvSave (output_pdf a);
                             EvPrint (txt "Saved " ++ output_pdf a)]
              /\ count_events is_save evs0 = 0%nat)
     /\ (count_events is_new_page evs <= length (pages_iter a))%nat)
  /\ (calls w <= calls w' <= calls w + 5 * length (pages_iter a))%nat
  /\ (which_node ext = false ->
      res = Raise (RuntimeError "Node.js not found. Install it first.")
      /\ w' = w).
Proof.
  intros res w'. subst res w'.
  destruct (which_node ext) eqn:Hnode.
  2:{ rewrite (annotate_pdf_no_node ext a w Hnode). cbn [fst snd].
      split; [|split; [lia | intros _; split; reflexivity]].
      exists []. rewrite app_nil_r. split; [reflexivity|].
      split; [split; discriminate|]. split; [reflexivity|].
      split; [discriminate | cbn; lia]. }
  rewrite (annotate_pdf_with_node ext a w Hnode).
  destruct (pages_loop_outcome ext a (pages_iter a) w)
    as (res1 & fs1 & evs1 & E1 & C1 & S1 & N1 & R1 & Hok1 & _).
  rewrite E1. destruct res1 as [[]|e]; [destruct (pages_iter a) as [|i0 l0] eqn:El|];
    cbn [fst snd files calls trace].
  - split; [|split; [lia | discriminate]].
    exists evs1. rewrite S1. split; [reflexivity|].
    split; [split; discriminate|]. split; [reflexivity|].
    split; [discriminate | exact N1].
  - destruct (Hok1 eq_refl) as (N1' & R1' & _).
    split; [|split; [lia | discriminate]].
    exists (evs1 ++ [EvSave (output_pdf a);
                     EvPrint (txt "Saved " ++ output_pdf a)]).
    rewrite !count_events_app, S1, N1', R1'. cbn.
    split; [rewrite <- app_assoc; reflexivity|].
    split; [tauto|]. split; [congruence|].
    split; [|lia]. intros _. split; [lia|]. split; [lia|].
    exists evs1. split; [reflexivity | exact S1].
  - split; [|split; [lia | discriminate]].
    exists evs1. rewrite S1. split; [reflexivity|].
    split; [split; discriminate|]. split; [reflexivity|].
    split; [discriminate | exact N1].
Qed.

Lemma annotate_pdf_output_witness :
  count_events is_new_page
    (trace (snd (annotate_pdf (sample_ext 0 (txt "Explanation: x") 0)
                   (sample_args false) empty_world)))
  = 2%nat.
Proof.
  destruct (proj1 (annotate_pdf_output (sample_ext 0 (txt "Explanation: x") 0)
                     (sample_args false) empty_world))
    as (evs & Et & _ & _ & Hok & _).
  rewrite Et. exact (proj1 (Hok eq_refl)).
Defined.

Lemma annotate_pdf_cache_any ext a w :
  (forall p, outside_records a (pages_iter a) p ->
             files (snd (annotate_pdf ext a w)) !! p = files w !! p)
  /\ (forall p, is_Some (files w !! p) ->
                is_Some (files (snd (annotate_pdf ext a w)) !! p))
  /\ (fst (annotate_pdf ext a w) = Ok tt ->
      forall idx, idx ∈ pages_iter a ->
                  has_records a (files (snd (annotate_pdf ext a w))) idx)
  /\ (forall e, fst (annotate_pdf ext a w) = Raise e ->
        which_node ext = true -> pages_iter a <> [] ->
        exists before idx rest,
          pages_iter a = before ++ idx :: rest
          /\ forall j, j ∈ before ->
                has_records a (files (snd (annotate_pdf ext a w))) j).
Proof.
  destruct (which_node ext) eqn:Hnode.
  2:{ rewrite (annotate_pdf_no_node ext a w Hnode). cbn [fst snd].
      split; [reflexivity|]. split; [tauto|]. split; discriminate. }
  rewrite (annotate_pdf_with_node ext a w Hnode).
  pose proof (failed_loop ext a (pages_iter a) w) as Hfail.
  destruct (pages_loop_outcome ext a (pages_iter a) w)
    as (res1 & fs1 & evs1 & E1 & _ & _ & _ & _ & Hok1 & Hf1 & Hm1 & _).
  rewrite E1 in *.
  destruct res1 as [[]|e]; [destruct (pages_iter a) as [|i0 l0] eqn:El|];
    cbn [fst snd files calls trace] in *.
  - split; [exact Hf1|]. split; [exact Hm1|]. split; [discriminate|].
    intros e _ _ H. congruence.
  - split; [exact Hf1|]. split; [exact Hm1|].
    split; [intros _; apply (Hok1 eq_refl) | discriminate].
  - split; [exact Hf1|]. split; [exact Hm1|]. split; [discriminate|].
    intros e' [= <-] _ _.
    destruct (Hfail e eq_refl) as (before & idx & rest & El & Hrec & _).
    exists before, idx, rest. split; assumption.
Qed.



Lemma cached_run_outcome ext a w :
  force a = false -> all_cached a (files w) (pages_iter a) ->
  exists res fs' evs,
    annotate_pdf ext a w = (res, mkWorld fs' (calls w) (trace w ++ evs))
    /\ count_events is_service evs = 0%nat
    /\ (forall idx, fs' !! note_path a idx = files w !! note_path a idx).
Proof.
  intros Hforce Hc. destruct (which_node ext) eqn:Hnode.
  2:{ rewrite (annotate_pdf_no_node ext a w Hnode).
      exists (Raise (RuntimeError "Node.js not found. Install it first.")),
        (files w), [].
      split; [destruct w; cbn; rewrite app_nil_r; reflexivity|].
      split; reflexivity. }
  rewrite (annotate_pdf_with_node ext a w Hnode).
  destruct (cached_loop ext a (pages_iter a) Hforce w Hc)
    as (res1 & fs1 & evs1 & E1 & Z1 & Hf1).
  rewrite E1.
  assert (Hnotes : forall idx, fs1 !! note_path a idx = files w !! note_path a idx).
  { intros idx. apply Hf1. intros j _. apply not_eq_sym, fragment_path_not_note. }
  destruct res1 as [[]|e]; [destruct (pages_iter a) as [|i0 l0]|];
    cbn [files calls trace].
  - exists (Raise ValueError), fs1, evs1.
    split; [reflexivity|]. split; [exact Z1 | exact Hnotes].
  - exists (Ok tt), fs1,
      (evs1 ++ [EvSave (output_pdf a); EvPrint (txt "Saved " ++ output_pdf a)]).
    split; [rewrite <- app_assoc; reflexivity|].
    split; [rewrite count_events_app, Z1; reflexivity | exact Hnotes].
  - exists (Raise e), fs1, evs1.
    split; [reflexivity|]. split; [exact Z1 | exact Hnotes].
Qed.



(** X8: after a successful run, a second run over the same pages with
    force off sends no request to the service and leaves every note as
    the first run left it. *)
Theorem rerun_asks_nothing (ext : Collaborators) (a : Args) (w : World) :
  fst (annotate_pdf ext a w) = Ok tt ->
  let w1 := snd (annotate_pdf ext a w) in
  let w2 := snd (annotate_pdf ext (with_force a false) w1) in
  calls w2 = calls w1
  /\ forall idx, files w2 !! note_path a idx = files w1 !! note_path a idx.
Proof.
  intros Hok w1 w2. subst w2.
  assert (Hc : all_cached (with_force a false) (files w1)
                 (pages_iter (with_force a false))).
  { intros idx Hin.
    exact (proj1 (proj1 (proj2 (proj2 (annotate_pdf_cache_any ext a w))) Hok idx Hin)). }
  destruct (cached_run_outcome ext (with_force a false) w1 eq_refl Hc)
    as (res & fs' & evs & E & _ & Hn).
  rewrite E. cbn [snd files calls]. split; [reflexivity | exact Hn].
Qed.

Lemma rerun_asks_nothing_witness :
  calls (snd (annotate_pdf (sample_ext 0 (txt "Explanation: x") 0)
                (with_force (sample_args true) false)
                (snd (annotate_pdf (sample_ext 0 (txt "Explanation: x") 0)
                        (sample_args true) empty_world))))
  = calls (snd (annotate_pdf (sample_ext 0 (txt "Explanation: x") 0)
                  (sample_args true) empty_world)).
Proof.
  exact (proj1 (rerun_asks_nothing (sample_ext 0 (txt "Explanation: x") 0)
                  (sample_args true) empty_world eq_refl)).
Defined.

(** ** parse_pages on any text *)







(** ** main *)





(** ** The cache records of a page *)

(** X12: the cache records are kept apart: two page indices never share
    a note or a fragment, and no fragment is ever a note; so a run of
    [annotate_pdf] leaves the note and the fragment of every page
    outside its selection as they were. *)
Theorem cache_records_apart (ext : Collaborators) (a : Args) (w : World)
  (i j : Z) :
  (note_path a i = note_path a j -> i = j)
  /\ (fragment_path a i = fragment_path a j -> i = j)
  /\ fragment_path a i <> note_path a j
  /\ (i ∉ pages_iter a ->
      files (snd (annotate_pdf ext a w)) !! note_path a i
      = files w !! note_path a i
      /\ files (snd (annotate_pdf ext a w)) !! fragment_path a i
         = files w !! fragment_path a i).
Proof.
  split; [apply note_path_inj|]. split; [apply fragment_path_inj|].
  split; [apply fragment_path_not_note|].
  intros Hout.
  destruct (annotate_pdf_cache_any ext a w) as (Hframe & _).
  split; apply Hframe; intros idx Hin; split; intros E.
  - apply note_path_inj in E. subst. contradiction.
  - symmetry in E. exact (fragment_path_not_note a idx i E).
  - exact (fragment_path_not_note a i idx E).
  - apply fragment_path_inj in E. subst. contradiction.
Qed.

Lemma cache_records_apart_witness :
  files (snd (annotate_pdf (sample_ext 0 (txt "Explanation: x") 0)
                (with_pages (sample_args true) (Some [2]))
                (cached_world (sample_args true) 1 (txt "kept"))))
    !! note_path (sample_args true) 1
  = Some (txt "kept").
Proof.
  assert (Hout : 1 ∉ pages_iter (with_pages (sample_args true) (Some [2]))).
  { intros H. apply list_elem_of_singleton in H. discriminate. }
  destruct (proj2 (proj2 (proj2
             (cache_records_apart (sample_ext 0 (txt "Explanation: x") 0)
                (with_pages (sample_args true) (Some [2]))
                (cached_world (sample_args true) 1 (txt "kept")) 1 1)))
             Hout) as [H _].
  etransitivity; [exact H | apply lookup_singleton_eq].
Defined.

(** ** Selections written out in decimal *)










(** ** A freshly generated note *)

Lemma forallb_drop {A} (p : A -> bool) n (s : list A) :
  forallb p s = true -> forallb p (drop n s) = true.
Proof.
  revert n. induction s as [|c s IH]; intros [|n] H; try reflexivity.
  - exact H.
  - simpl in H. apply andb_true_iff in H as [_ H]. apply IH, H.
Qed.

(** The substitution yields only characters of the text and of the
    replacement. *)
Lemma sub_line_start_chars p fuel h repl :
  forallb p repl = true ->
  forall bol s, forallb p s = true ->
                forallb p (sub_line_start fuel h repl bol s) = true.
Proof.
  intros Hr. induction fuel as [|fuel IH]; intros bol s Hs.
  - destruct s; [reflexivity | exact Hs].
  - destruct s as [|c s]; [reflexivity|].
    cbn [sub_line_start]. destruct (bol && starts_with h (c :: s)).
    + rewrite forallb_app, Hr. apply IH, forallb_drop, Hs.
    + simpl in Hs. apply andb_true_iff in Hs as [Hc Hs'].
      cbn [forallb]. rewrite Hc. apply IH, Hs'.
Qed.

Lemma format_headers_chars p body :
  forallb (fun h => forallb p (replacement h)) headers = true ->
  forallb p body = true ->
  forallb p (format_annotation_headers body) = true.
Proof.
  unfold format_annotation_headers. revert body.
  induction headers as [|h hs IH]; intros body Hh Hb; [exact Hb|].
  cbn [forallb] in Hh. apply andb_true_iff in Hh as [Hh1 Hh2].
  cbn [fold_left]. apply IH; [exact Hh2|].
  unfold format_header, re_sub_line_start.
  apply sub_line_start_chars; assumption.
Qed.

Lemma replace_char_removes a b s :
  chr_eqb b a = false ->
  forallb (fun c => negb (chr_eqb c a)) (py_replace_char a b s) = true.
Proof.
  intros Hab. induction s as [|c s IH]; [reflexivity|].
  cbn [py_replace_char map forallb]. fold (py_replace_char a b s).
  rewrite IH, andb_true_r. destruct (chr_eqb c a) eqn:E.
  - rewrite Hab. reflexivity.
  - rewrite E. reflexivity.
Qed.

Lemma normalise_no_nbsp ot : no_nbsp (normalise ot) = true.
Proof.
  unfold normalise, no_nbsp. apply format_headers_chars; [reflexivity|].
  apply replace_char_removes. reflexivity.
Qed.

Lemma generate_note_result ext a page idx w t :
  fst (generate_note ext a page idx w) = Ok t ->
  (exists k ot,
     (k <= 4)%nat /\ fails_for ext (calls w) k (page_prompt a page idx) 2000
     /\ service ext (calls w + k) (page_prompt a page idx) 2000 = Resp ot
     /\ t = normalise ot)
  /\ files (snd (generate_note ext a page idx w)) !! note_path a idx = Some t.
Proof.
  unfold generate_note, bind. fold (page_prompt a page idx).
  destruct (call_gpt5_outcome ext (page_prompt a page idx) 2000 w)
    as (res0 & evs0 & E & _ & _ & _ & _ & Hok).
  rewrite E. destruct res0 as [t0|e]; [|discriminate].
  unfold write_text, ret. cbn [fst snd files]. intros [= <-].
  destruct (Hok t0 eq_refl) as (k & ot & Hk & Hf & Hr & ->).
  split; [|apply lookup_insert_eq].
  exists k, ot. repeat split; assumption.
Qed.

(** X14: a note that [annotate_pdf] generates is what the service
    answered to the first request for the page's prompt that did not
    raise (one of the first five), stripped, with every non-breaking
    space turned into a space and the headers put in bold; it holds no
    non-breaking space, and it is the text written to the note record
    of the page. *)
Theorem generated_note_normalised (ext : Collaborators) (a : Args)
  (page : SourcePage) (idx : Z) (w : World) (t : text) :
  fst (generate_note ext a page idx w) = Ok t ->
  no_nbsp t = true
  /\ files (snd (generate_note ext a page idx w)) !! note_path a idx = Some t
  /\ exists k ot,
       (k <= 4)%nat
       /\ fails_for ext (calls w) k (page_prompt a page idx) 2000
       /\ service ext (calls w + k) (page_prompt a page idx) 2000 = Resp ot
       /\ t = format_annotation_headers
               (py_replace_char nbsp " " (py_strip (default [] ot))).
Proof.
  intros H. destruct (generate_note_result ext a page idx w t H)
    as [(k & ot & Hk & Hfail & Hresp & ->) Hfile].
  split; [apply normalise_no_nbsp|]. split; [exact Hfile|].
  exists k, ot. repeat split; assumption.
Qed.

Lemma generated_note_normalised_witness :
  no_nbsp (txt "**Explanation:**" ++ newline :: txt " a b") = true.
Proof.
  exact (proj1 (generated_note_normalised
                  (sample_ext 0 (txt "Explanation: a" ++ nbsp :: txt "b ") 0)
                  (sample_args false) (mkPage 100 50 (txt " Slide one ") [])
                  1 empty_world
                  (txt "**Explanation:**" ++ newline :: txt " a b") eq_refl)).
Defined.

(** ** The texts header formatting leaves alone *)

Lemma lines_size_app l1 l2 :
  lines_size (l1 ++ l2) = (lines_size l1 + lines_size l2)%nat.
Proof.
  unfold lines_size. induction l1 as [|l l1 IH]; [reflexivity|].
  cbn [app fold_right]. rewrite IH. lia.
Qed.

Lemma join_lines_size ls :
  ls <> [] -> S (length (join_lines ls)) = lines_size ls.
Proof.
  induction ls as [|l ls IH]; [congruence|]. intros _.
  destruct ls as [|l' ls].
  - unfold lines_size. cbn. lia.
  - rewrite join_lines_cons by discriminate. rewrite length_app.
    unfold lines_size in *. cbn [length fold_right] in *.
    rewrite <- IH by discriminate. lia.
Qed.

Lemma starts_with_length h l :
  starts_with h l = true -> (length h <= length l)%nat.
Proof.
  revert l. induction h as [|c h IH]; intros l H; [cbn; lia|].
  destruct l as [|d l]; [discriminate|]. cbn in *.
  apply andb_true_iff in H as [_ H]. specialize (IH l H). lia.
Qed.

Lemma headers_grow : Forall grows_by_four headers.
Proof. repeat constructor. Qed.

Lemma pass_lines_size h ls :
  grows_by_four h ->
  (lines_size ls <= lines_size (pass_lines h ls))%nat
  /\ (Exists (fun l => starts_with h l = true) ls ->
      (lines_size ls < lines_size (pass_lines h ls))%nat).
Proof.
  intros [_ Hb]. induction ls as [|l ls [IH1 IH2]].
  - split; [reflexivity|]. intros H. inversion H.
  - unfold pass_lines in *. cbn [flat_map]. rewrite lines_size_app.
    unfold rewrite_line_for at 1 3.
    destruct (starts_with h l) eqn:E.
    + pose proof (starts_with_length h l E) as Hl.
      unfold lines_size in *. cbn [fold_right]. rewrite length_drop, Hb.
      split; [lia | intros _; lia].
    + unfold lines_size in *. cbn [fold_right]. split; [lia|].
      intros H. apply Exists_cons in H as [H | H]; [congruence|].
      specialize (IH2 H). lia.
Qed.

Lemma passes_size hs :
  Forall grows_by_four hs ->
  forall ls,
    (lines_size ls <= lines_size (passes hs ls))%nat
    /\ (Exists (fun l => first_header hs l <> None) ls ->
        (lines_size ls < lines_size (passes hs ls))%nat).
Proof.
  induction 1 as [|h hs Hh _ IH]; intros ls.
  - split; [reflexivity|]. intros H. apply Exists_exists in H as (l & _ & H).
    exfalso. apply H. reflexivity.
  - rewrite passes_cons.
    destruct (pass_lines_size h ls Hh) as [P1 P2].
    destruct (IH (pass_lines h ls)) as [Q1 Q2].
    split; [lia|]. intros Hex.
    destruct (existsb (starts_with h) ls) eqn:Ee.
    + apply existsb_exists in Ee as (l & Hl & Hs).
      assert (Hs' : Exists (fun l => starts_with h l = true) ls).
      { apply Exists_exists. exists l.
        split; [apply list_elem_of_In, Hl | exact Hs]. }
      specialize (P2 Hs'). lia.
    + assert (Hnone : forall l, l ∈ ls -> starts_with h l = false).
      { intros l Hl. destruct (starts_with h l) eqn:E; [|reflexivity].
        assert (existsb (starts_with h) ls = true); [|congruence].
        apply existsb_exists. exists l.
        split; [apply list_elem_of_In, Hl | exact E]. }
      assert (Hnoop : pass_lines h ls = ls).
      { apply pass_lines_noop. apply Forall_forall. exact Hnone. }
      rewrite Hnoop in *. apply Q2.
      apply Exists_exists in Hex as (l & Hl & Hne).
      apply Exists_exists. exists l. split; [exact Hl|].
      unfold first_header in *. cbn [List.find] in Hne.
      rewrite (Hnone l Hl) in Hne. exact Hne.
Qed.

Lemma passes_nonempty hs ls : ls <> [] -> passes hs ls <> [].
Proof.
  revert ls. induction hs as [|h hs IH]; intros ls H; [exact H|].
  rewrite passes_cons. apply IH, pass_lines_nonempty, H.
Qed.

Lemma format_headers_as_passes body :
  format_annotation_headers body
  = join_lines (passes headers (lines body)).
Proof.
  unfold format_annotation_headers.
  rewrite <- (join_lines_lines body) at 1.
  apply (format_headers_passes headers (lines body) headers_plain
           (lines_nonempty body) (lines_no_nl body)).
Qed.

Lemma forallb_false_exists {A} (f : A -> bool) l :
  forallb f l = false -> exists x, In x l /\ f x = false.
Proof.
  induction l as [|x l IH]; [discriminate|]. cbn [forallb].
  destruct (f x) eqn:E.
  - intros H. destruct (IH H) as (y & Hy & Hf). exists y. split; [right|]; assumption.
  - intros _. exists x. split; [left; reflexivity | exact E].
Qed.

Lemma format_headers_length body :
  (length body <= length (format_annotation_headers body))%nat
  /\ (no_line_header body = false ->
      (length body < length (format_annotation_headers body))%nat).
Proof.
  rewrite format_headers_as_passes.
  pose proof (join_lines_size (lines body) (lines_nonempty body)) as E1.
  pose proof (join_lines_size (passes headers (lines body))
                (passes_nonempty headers _ (lines_nonempty body))) as E2.
  rewrite join_lines_lines in E1.
  destruct (passes_size headers headers_grow (lines body)) as [P1 P2].
  split; [lia|]. intros Hno.
  assert (Hex : Exists (fun l => first_header headers l <> None) (lines body)).
  { unfold no_line_header in Hno.
    apply forallb_false_exists in Hno as (l & Hl & Hne).
    apply Exists_exists. exists l. split; [apply list_elem_of_In, Hl|].
    unfold line_header in Hne. fold (first_header headers l) in Hne.
    destruct (first_header headers l); [discriminate | discriminate]. }
  specialize (P2 Hex). lia.
Qed.

(** X15: header formatting never shortens a text, and it returns a text
    unchanged exactly when no line of it begins with a recognized
    header; hence formatting twice gives the same as formatting once
    exactly when the text formatted once has no recognized header left
    at a line start. *)
Theorem format_headers_fixed_points (body : text) :
  (length body <= length (format_annotation_headers body))%nat
  /\ (format_annotation_headers body = body <-> no_line_header body = true)
  /\ (format_annotation_headers (format_annotation_headers body)
      = format_annotation_headers body
      <-> no_line_header (format_annotation_headers body) = true).
Proof.
  assert (Hfix : forall t, format_annotation_headers t = t
                           <-> no_line_header t = true).
  { intros t. split; [|apply format_no_header].
    intros E. destruct (no_line_header t) eqn:Hn; [reflexivity|].
    destruct (format_headers_length t) as [_ H]. specialize (H Hn).
    rewrite E in H. lia. }
  split; [apply format_headers_length|]. split; apply Hfix.
Qed.

Lemma format_headers_fixed_points_witness :
  no_line_header (txt "see Title: b") = true
  /\ format_annotation_headers (txt "a" ++ newline :: txt "Title: b")
     <> txt "a" ++ newline :: txt "Title: b".
Proof.
  split.
  - apply (proj1 (proj1 (proj2 (format_headers_fixed_points
                                  (txt "see Title: b"))))).
    reflexivity.
  - intros E.
    pose proof (proj1 (proj1 (proj2 (format_headers_fixed_points
                  (txt "a" ++ newline :: txt "Title: b")))) E) as H.
    vm_compute in H. discriminate.
Defined.

(** ** The prompt of a page *)

Lemma boundary_is_space c : is_line_boundary c = true -> is_space c = true.
Proof.
  destruct c as [[] [] [] [] [] [] [] []]; vm_compute; congruence.
Qed.

Lemma splitlines_from_head s :
  forall cur, cur <> [] ->
    exists rest, splitlines_from cur s = (rev cur ++ first_line s) :: rest.
Proof.
  induction s as [|c s IH]; intros cur Hc.
  - exists []. cbn. rewrite app_nil_r. destruct cur; [congruence | reflexivity].
  - cbn [splitlines_from first_line]. destruct (is_line_boundary c).
    + rewrite app_nil_r. destruct s as [|d s']; [exists []; reflexivity|].
      destruct (chr_eqb c (ascii_of_N 13) && chr_eqb d newline); eauto.
    + destruct (IH (c :: cur)) as [rest E]; [discriminate|].
      exists rest. rewrite E. cbn [rev]. rewrite <- app_assoc. reflexivity.
Qed.

Lemma strip_by_empty blank s :
  strip_by blank s = [] -> forallb blank s = true.
Proof.
  intros E. destruct (strip_by_decompose blank s) as (l & r & Es & Hl & Hr).
  rewrite E in Es. cbn [app] in Es. rewrite Es, forallb_app, Hl, Hr.
  reflexivity.
Qed.

(** X16: the prompt of a page is built from the course name cut to 120
    characters and, when text was extracted, from the first line of that
    text cut to 120 characters as title and the whole text as body; the
    title "Slide idx" and the body "(no text detected)" are used exactly
    when no text was extracted. *)
Theorem page_prompt_fields (a : Args) (page : SourcePage) (idx : Z) :
  (extract_text page = [] ->
   page_prompt a page idx
   = user_prompt (py_take 120 (course_name a))
       (py_take 120 (txt "Slide " ++ py_str_int idx))
       (txt "(no text detected)"))
  /\ (extract_text page <> [] ->
      first_line (extract_text page) <> []
      /\ page_prompt a page idx
         = user_prompt (py_take 120 (course_name a))
             (py_take 120 (first_line (extract_text page)))
             (extract_text page)).
Proof.
  unfold page_prompt, build_prompt. split.
  - intros ->. reflexivity.
  - intros Hne.
    assert (Htrim : trimmed (extract_text page)).
    { unfold extract_text, py_join_nl.
      destruct (py_strip (page_text page)) eqn:E;
        [|rewrite <- E]; apply py_strip_trimmed. }
    destruct (extract_text page) as [|c r] eqn:E; [congruence|].
    pose proof (proj1 Htrim c r eq_refl) as Hc.
    assert (Hb : is_line_boundary c = false).
    { destruct (is_line_boundary c) eqn:Hb; [|reflexivity].
      apply boundary_is_space in Hb. congruence. }
    split; [cbn [first_line]; rewrite Hb; discriminate|].
    unfold py_splitlines. cbn [splitlines_from]. rewrite Hb.
    destruct (splitlines_from_head r [c]) as [rest Er]; [discriminate|].
    rewrite Er. cbn [List.find rev app first_line]. rewrite Hb.
    assert (Hs : py_strip (c :: first_line r) <> []).
    { intros Hs. apply strip_by_empty in Hs. cbn in Hs.
      rewrite Hc in Hs. discriminate. }
    rewrite bool_decide_eq_false_2 by exact Hs. reflexivity.
Qed.

Lemma page_prompt_fields_witness :
  page_prompt (sample_args false) (mkPage 100 50 [] []) 2
  = user_prompt (py_take 120 (course_name (sample_args false)))
      (py_take 120 (txt "Slide " ++ py_str_int 2)) (txt "(no text detected)")
  /\ first_line (extract_text
                   (mkPage 100 50 (txt " Slide one" ++ newline :: txt "more ") []))
     <> [].
Proof.
  split.
  - apply (proj1 (page_prompt_fields (sample_args false)
                    (mkPage 100 50 [] []) 2)).
    reflexivity.
  - apply (proj2 (page_prompt_fields (sample_args false)
                    (mkPage 100 50 (txt " Slide one" ++ newline :: txt "more ") [])
                    2)).
    vm_compute. discriminate.
Defined.

(** ** What a slug keeps *)

Lemma slug_char_not_hyphen c :
  is_slug_char c = true -> chr_eqb c "-" = false.
Proof.
  intros H. destruct (slug_char_fixed c) as [_ Hm]; [rewrite H; reflexivity|].
  apply Hm, H.
Qed.

Lemma hyphen_not_slug_char c :
  chr_eqb c "-" = true -> is_slug_char c = false.
Proof.
  intros H. destruct (is_slug_char c) eqn:E; [|reflexivity].
  rewrite (slug_char_not_hyphen c E) in H. discriminate.
Qed.

Lemma sub_runs_keeps b s :
  List.filter is_slug_char (sub_runs b s) = List.filter is_slug_char s.
Proof.
  revert b. induction s as [|c s IH]; intros b; [reflexivity|].
  cbn [sub_runs List.filter]. destruct (is_slug_char c) eqn:E.
  - cbn [List.filter]. rewrite E, IH. reflexivity.
  - destruct b; [apply IH|]. cbn [List.filter].
    rewrite (hyphen_not_slug_char "-" eq_refl). apply IH.
Qed.

Lemma lstrip_char_keeps s :
  List.filter is_slug_char (lstrip_char "-" s) = List.filter is_slug_char s.
Proof.
  induction s as [|c s IH]; [reflexivity|]. cbn [lstrip_char].
  destruct (chr_eqb c "-") eqn:E; [|reflexivity].
  cbn [List.filter]. rewrite (hyphen_not_slug_char c E). exact IH.
Qed.

Lemma rstrip_char_keeps s :
  List.filter is_slug_char (rstrip_char "-" s) = List.filter is_slug_char s.
Proof.
  induction s as [|c s IH]; [reflexivity|]. cbn [rstrip_char].
  destruct (rstrip_char "-" s) as [|d r] eqn:Er.
  - cbn [List.filter] in *. rewrite <- IH.
    destruct (chr_eqb c "-") eqn:E.
    + rewrite (hyphen_not_slug_char c E). reflexivity.
    + reflexivity.
  - cbn [List.filter] in *. rewrite <- IH. reflexivity.
Qed.

Lemma sub_runs_no_slug_char s :
  List.filter is_slug_char s = [] ->
  sub_runs true s = [] /\ (sub_runs false s = [] \/ sub_runs false s = ["-"%char]).
Proof.
  induction s as [|c s IH]; [split; [|left]; reflexivity|].
  cbn [List.filter sub_runs]. destruct (is_slug_char c); [discriminate|].
  intros H. destruct (IH H) as [-> _]. split; [|right]; reflexivity.
Qed.

(** X17: a slug keeps exactly the letters and digits of the lower-cased
    name, in their order, and is empty exactly when the name has none. *)
Theorem slug_keeps_alnum (s : text) :
  List.filter is_slug_char (_slug s) = List.filter is_slug_char (py_lower s)
  /\ (_slug s = [] <-> List.filter is_slug_char (py_lower s) = []).
Proof.
  assert (Hk : List.filter is_slug_char (_slug s)
               = List.filter is_slug_char (py_lower s)).
  { unfold _slug, strip_char.
    rewrite rstrip_char_keeps, lstrip_char_keeps, sub_runs_keeps. reflexivity. }
  split; [exact Hk|]. split.
  - intros E. rewrite <- Hk, E. reflexivity.
  - intros E. unfold _slug.
    destruct (sub_runs_no_slug_char _ E) as [_ [-> | ->]]; reflexivity.
Qed.

Lemma slug_keeps_alnum_witness : _slug (txt "?! (...)") = [].
Proof.
  apply (proj2 (proj2 (slug_keeps_alnum (txt "?! (...)")))). reflexivity.
Defined.

(** ** A page that fails *)

Lemma annotate_page_failure ext a idx w :
  (fst (annotate_page ext a idx w) = Raise RetryError ->
   files (snd (annotate_page ext a idx w)) = files w)
  /\ (fst (annotate_page ext a idx w)
      = Raise (RuntimeError "render-note.js failed") ->
      is_Some (files (snd (annotate_page ext a idx w)) !! note_path a idx)
      /\ files (snd (annotate_page ext a idx w)) !! fragment_path a idx
         = files w !! fragment_path a idx).
Proof.
  destruct (load_page_cases (src a) (idx - 1) w) as [Hl | [page Hl]].
  { unfold annotate_page, bind. rewrite Hl. cbn [fst]. split; discriminate. }
  rewrite (annotate_page_loaded ext a idx page w Hl).
  destruct (note_text_outcome ext a page idx
              (mkWorld (files w) (calls w)
                 (trace w ++ setup_events a page idx)))
    as (res1 & fs1 & evs1 & E1 & _ & _ & Hf1 & _ & Hok1 & Hr1 & _).
  rewrite E1. cbn [files calls trace] in *. destruct res1 as [note | e].
  - destruct (place_note_outcome ext a (page_notes_rect a page) note idx
                (mkWorld fs1 (calls w + count_events is_service evs1)
                   ((trace w ++ setup_events a page idx) ++ evs1)))
      as (res2 & fs2 & evs2 & E2 & _ & _ & _ & _ & _ & _ & _ & Hr2).
    rewrite E2. cbn [fst snd files calls trace] in *. split.
    + intros ->.
      destruct (Hr2 _ eq_refl) as [[Habs _] | [Habs | Habs]]; discriminate.
    + intros ->.
      destruct (Hr2 _ eq_refl) as [[_ ->] | [Habs | Habs]]; [|discriminate ..].
      split; [apply (Hok1 note eq_refl)|].
      apply Hf1, fragment_path_not_note.
  - cbn [fst snd files]. destruct (Hr1 e eq_refl) as [-> ->].
    split; [reflexivity | discriminate].
Qed.

(** X18: when the step of a page fails in the generator, no file has
    changed; when it fails in the renderer, the note of the page is in
    the cache and its fragment is as before, so that the same step
    without force then sends no request to the service. *)
Theorem failed_page_keeps_note (ext : Collaborators) (a : Args) (idx : Z)
  (w : World) :
  let res := fst (annotate_page ext a idx w) in
  let w' := snd (annotate_page ext a idx w) in
  (res = Raise RetryError -> files w' = files w)
  /\ (res = Raise (RuntimeError "render-note.js failed") ->
      is_Some (files w' !! note_path a idx)
      /\ files w' !! fragment_path a idx = files w !! fragment_path a idx
      /\ calls (snd (annotate_page ext (with_force a false) idx w'))
         = calls w').
Proof.
  intros res w'. subst res w'.
  destruct (annotate_page_failure ext a idx w) as [H1 H2].
  split; [exact H1|]. intros Hr. destruct (H2 Hr) as [Hn Hf].
  split; [exact Hn|]. split; [exact Hf|].
  destruct (annotate_page_outcome ext (with_force a false) idx
              (snd (annotate_page ext a idx w)))
    as (res & fs' & evs & E & _ & _ & _ & _ & _ & _ & _ & _ & _ & Hhit).
  rewrite E. cbn [snd calls].
  destruct (Hhit eq_refl Hn) as [-> _]. lia.
Qed.

Lemma failed_page_keeps_note_witness :
  is_Some (files (snd (annotate_page (sample_ext 0 (txt "Explanation: x") 3)
                         (sample_args false) 1 empty_world))
             !! note_path (sample_args false) 1).
Proof.
  exact (proj1 (proj2 (failed_page_keeps_note
                         (sample_ext 0 (txt "Explanation: x") 3)
                         (sample_args false) 1 empty_world) eq_refl)).
Defined.

(** ** Requests sent in a run *)

Lemma call_gpt5_answered ext prompt mt w :
  service_answers ext ->
  exists t, call_gpt5 ext prompt mt w
            = (Ok t, mkWorld (files w) (calls w + 1)
                             (trace w ++ [EvService prompt mt])).
Proof.
  intros Hs. destruct (Hs (calls w + 0)%nat prompt mt) as [ot Hot].
  exists (py_strip (default [] ot)). unfold call_gpt5.
  rewrite (retrying_answer ext prompt mt ot 0 5 1 w);
    [| lia | lia | intros j Hj; lia | exact Hot].
  cbn [failed_attempts app]. rewrite Nat.add_0_r. reflexivity.
Qed.

Lemma note_text_requests ext a page idx w :
  (force a = true ->
   (calls w + 1 <= calls (snd (note_text ext a page idx w)))%nat)
  /\ (service_answers ext ->
      (calls (snd (note_text ext a page idx w)) <= calls w + 1)%nat
      /\ exists t, fst (note_text ext a page idx w) = Ok t).
Proof.
  split.
  - intros Hf. rewrite (note_text_generates ext a page idx w (or_introl Hf)).
    unfold generate_note, bind. fold (page_prompt a page idx).
    destruct (call_gpt5_outcome ext (page_prompt a page idx) 2000 w)
      as (res0 & evs0 & E & _ & Hn & _).
    rewrite E. destruct res0; cbn [snd calls write_text ret]; lia.
  - intros Hs. destruct (force a) eqn:Hf;
      [|destruct (files w !! note_path a idx) as [stored|] eqn:Hst].
    2:{ rewrite (note_text_hit ext a page idx w stored Hf Hst).
        cbn [fst snd calls]. split; [lia | eauto]. }
    all: assert (Hm : force a = true \/ files w !! note_path a idx = None)
           by (first [left; exact Hf | right; exact Hst]);
         rewrite (note_text_generates ext a page idx w Hm);
         unfold generate_note, bind; fold (page_prompt a page idx);
         destruct (call_gpt5_answered ext (page_prompt a page idx) 2000 w Hs)
           as [t E];
         rewrite E; cbn [fst snd calls write_text ret]; split; [lia | eauto].
Qed.

Lemma annotate_page_requests ext a idx w :
  (force a = true -> fst (annotate_page ext a idx w) = Ok tt ->
   (calls w + 1 <= calls (snd (annotate_page ext a idx w)))%nat)
  /\ (service_answers ext ->
      (calls (snd (annotate_page ext a idx w)) <= calls w + 1)%nat).
Proof.
  destruct (load_page_cases (src a) (idx - 1) w) as [Hl | [page Hl]].
  { unfold annotate_page, bind. rewrite Hl. cbn [fst snd].
    split; [discriminate|]. intros _. lia. }
  rewrite (annotate_page_loaded ext a idx page w Hl).
  destruct (note_text_requests ext a page idx
              (mkWorld (files w) (calls w)
                 (trace w ++ setup_events a page idx))) as [Hforce Hans].
  destruct (note_text ext a page idx
              (mkWorld (files w) (calls w)
                 (trace w ++ setup_events a page idx))) as [[note|e] w1] eqn:E1;
    cbn [fst snd calls] in *.
  - destruct (place_note_outcome ext a (page_notes_rect a page) note idx w1)
      as (res2 & fs2 & evs2 & E2 & _).
    rewrite E2. cbn [fst snd calls]. split.
    + intros Hf _. apply Hforce, Hf.
    + intros Hs. apply (Hans Hs).
  - split; [discriminate|]. intros Hs. apply (Hans Hs).
Qed.

Lemma pages_loop_requests ext a l :
  forall w,
    (force a = true -> fst (for_each l (annotate_page ext a) w) = Ok tt ->
     (calls w + length l
      <= calls (snd (for_each l (annotate_page ext a) w)))%nat)
    /\ (service_answers ext ->
        (calls (snd (for_each l (annotate_page ext a) w))
         <= calls w + length l)%nat).
Proof.
  induction l as [|x l IH]; intros w.
  - cbn. split; lia.
  - rewrite for_each_cons.
    destruct (annotate_page_requests ext a x w) as [Hf1 Hs1].
    destruct (annotate_page ext a x w) as [[[]|e] w1] eqn:E1;
      cbn [fst snd] in *.
    + destruct (IH w1) as [Hf2 Hs2]. cbn [length]. split.
      * intros Hf Hok. specialize (Hf1 Hf eq_refl). specialize (Hf2 Hf Hok). lia.
      * intros Hs. specialize (Hs1 Hs). specialize (Hs2 Hs). lia.
    + cbn [length]. split; [discriminate|].
      intros Hs. specialize (Hs1 Hs). lia.
Qed.

Lemma annotate_pdf_requests ext a w :
  (force a = true -> fst (annotate_pdf ext a w) = Ok tt ->
   (calls w + length (pages_iter a) <= calls (snd (annotate_pdf ext a w)))%nat)
  /\ (service_answers ext ->
      (calls (snd (annotate_pdf ext a w)) <= calls w + length (pages_iter a))%nat).
Proof.
  destruct (which_node ext) eqn:Hnode.
  2:{ rewrite (annotate_pdf_no_node ext a w Hnode). cbn [fst snd].
      split; [discriminate|]. intros _. lia. }
  rewrite (annotate_pdf_with_node ext a w Hnode).
  destruct (pages_loop_requests ext a (pages_iter a) w) as [Hf Hs].
  destruct (for_each (pages_iter a) (annotate_page ext a) w) as [[[]|e] w1];
    [destruct (pages_iter a) as [|i0 l0]|]; cbn [fst snd calls] in *.
  - split; [discriminate | exact Hs].
  - split; [intros H _; apply Hf; [exact H | reflexivity] | exact Hs].
  - split; [discriminate | exact Hs].
Qed.

(** X19: with force on, a run that succeeds has sent at least one
    request for each selected page, whatever the cache held. *)
Theorem forced_run_asks_for_every_page (ext : Collaborators) (a : Args)
  (w : World) :
  force a = true -> fst (annotate_pdf ext a w) = Ok tt ->
  (calls w + length (pages_iter a) <= calls (snd (annotate_pdf ext a w)))%nat.
Proof. apply annotate_pdf_requests. Qed.

Lemma forced_run_asks_for_every_page_witness :
  (0 + 2 <= calls (snd (annotate_pdf (sample_ext 1 (txt "Explanation: x") 0)
                          (sample_args true) empty_world)))%nat.
Proof.
  exact (forced_run_asks_for_every_page (sample_ext 1 (txt "Explanation: x") 0)
           (sample_args true) empty_world eq_refl eq_refl).
Defined.

(** X20: when the service answers every request, a run sends at most
    one request for each selected page, whether it succeeds or not,
    and a forced run that succeeds has sent exactly one for each. *)
Theorem answered_run_requests (ext : Collaborators) (a : Args) (w : World) :
  service_answers ext ->
  (calls (snd (annotate_pdf ext a w)) <= calls w + length (pages_iter a))%nat
  /\ (force a = true -> fst (annotate_pdf ext a w) = Ok tt ->
      calls (snd (annotate_pdf ext a w))
      = (calls w + length (pages_iter a))%nat).
Proof.
  intros Hs. destruct (annotate_pdf_requests ext a w) as [Hf Ha].
  specialize (Ha Hs). split; [exact Ha|].
  intros Hforce Hok. specialize (Hf Hforce Hok). lia.
Qed.

Lemma answered_run_requests_witness :
  calls (snd (annotate_pdf (sample_ext 0 (txt "Explanation: x") 0)
                (sample_args true) empty_world))
  = (0 + 2)%nat.
Proof.
  apply (proj2 (answered_run_requests (sample_ext 0 (txt "Explanation: x") 0)
                  (sample_args true) empty_world
                  (fun n p m => ex_intro _ (Some (txt "Explanation: x")) eq_refl))
           eq_refl eq_refl).
Defined.

(** ** Runs that cannot succeed *)

(** With a margin ratio of zero or less the notes column is empty. *)
Lemma notes_rect_empty sd m w h :
  (m <= 0)%Q -> (0 <= w)%Q ->
  rect_is_empty (notes_rect (layout sd m w h)) = true.
Proof.
  intros Hm Hw.
  assert (Hwm : (w * m <= 0)%Q).
  { assert (H : (0 <= w * (- m))%Q) by (apply Qmult_le_0_compat; lra). lra. }
  unfold rect_is_empty. apply orb_true_iff. left. apply Qle_bool_iff.
  destruct (layout_cases sd m w h) as [-> | ->]; cbn [notes_rect x0 x1]; lra.
Qed.

Lemma place_note_empty_rect ext a r note idx w :
  rect_is_empty r = true -> fst (place_note ext a r note idx w) <> Ok tt.
Proof.
  intros Hr.
  unfold place_note, show_note, render_md_to_pdf, bind, emit, raise, ret,
    write_bytes.
  destruct (negb (returncode _ =? 0)); [discriminate|].
  destruct (open_fragment ext _); [discriminate | discriminate |].
  rewrite Hr. discriminate.
Qed.

Lemma load_page_elem (pages : list SourcePage) i w page :
  load_page pages i w = (Ok page, w) -> page ∈ pages.
Proof.
  unfold load_page.
  destruct ((Z.of_nat (length pages) <=? i) || (Z.of_nat (length pages) =? 0));
    [discriminate|].
  destruct (pages !! Z.to_nat (i mod Z.of_nat (length pages))) as [p|] eqn:E;
    [|discriminate].
  intros [= <-]. eapply list_elem_of_lookup_2, E.
Qed.

Lemma annotate_page_empty_column ext a idx w :
  (margin_ratio a <= 0)%Q ->
  Forall (fun p => (0 <= page_width p)%Q) (src a) ->
  fst (annotate_page ext a idx w) <> Ok tt.
Proof.
  intros Hm Hw.
  destruct (load_page_cases (src a) (idx - 1) w) as [Hl | [page Hl]].
  { unfold annotate_page, bind. rewrite Hl. discriminate. }
  pose proof (load_page_elem _ _ _ _ Hl) as Hin.
  rewrite (annotate_page_loaded ext a idx page w Hl).
  destruct (note_text ext a page idx
              (mkWorld (files w) (calls w)
                 (trace w ++ setup_events a page idx))) as [[note|e] w1];
    [|discriminate].
  apply place_note_empty_rect. unfold page_notes_rect.
  apply notes_rect_empty; [exact Hm|].
  rewrite Forall_forall in Hw. apply Hw, Hin.
Qed.

Lemma annotate_pdf_no_page ext a w :
  which_node ext = true -> pages_iter a = [] ->
  annotate_pdf ext a w = (Raise ValueError, w).
Proof.
  intros Hnode Hp. rewrite (annotate_pdf_with_node ext a w Hnode), Hp.
  reflexivity.
Qed.

Lemma annotate_pdf_empty_column ext a w :
  (margin_ratio a <= 0)%Q ->
  Forall (fun p => (0 <= page_width p)%Q) (src a) ->
  fst (annotate_pdf ext a w) <> Ok tt.
Proof.
  intros Hm Hw. destruct (which_node ext) eqn:Hnode.
  2:{ rewrite (annotate_pdf_no_node ext a w Hnode). discriminate. }
  rewrite (annotate_pdf_with_node ext a w Hnode).
  destruct (pages_iter a) as [|x l]; [discriminate|].
  rewrite for_each_cons.
  pose proof (annotate_page_empty_column ext a x w Hm Hw) as Hx.
  destruct (annotate_page ext a x w) as [[[]|e] w1]; cbn [fst] in *;
    [congruence | discriminate].
Qed.

(** X4: a run over no page raises [ValueError] when it comes to saving,
    having done nothing; and with a margin ratio of zero or less (the
    pages having a width that is not negative) no run succeeds: the
    notes column of every page is empty, and no note can be drawn on
    an empty rectangle. *)
Theorem run_without_notes_column (ext : Collaborators) (a : Args) (w : World) :
  (which_node ext = true -> pages_iter a = [] ->
   annotate_pdf ext a w = (Raise ValueError, w))
  /\ ((margin_ratio a <= 0)%Q ->
      Forall (fun p => (0 <= page_width p)%Q) (src a) ->
      fst (annotate_pdf ext a w) <> Ok tt
      /\ forall page, page ∈ src a ->
           rect_is_empty (page_notes_rect a page) = true).
Proof.
  split; [apply annotate_pdf_no_page|].
  intros Hm Hw. split; [apply annotate_pdf_empty_column; assumption|].
  intros page Hin. unfold page_notes_rect. apply notes_rect_empty; [exact Hm|].
  rewrite Forall_forall in Hw. apply Hw, Hin.
Qed.

Lemma run_without_notes_column_witness :
  annotate_pdf (sample_ext 0 (txt "Explanation: x") 0)
    (with_pages (sample_args false) (Some [])) empty_world
  = (Raise ValueError, empty_world)
  /\ fst (annotate_pdf (sample_ext 0 (txt "Explanation: x") 0)
            (with_margin (sample_args false) 0) empty_world) <> Ok tt.
Proof.
  split.
  - apply (proj1 (run_without_notes_column
                    (sample_ext 0 (txt "Explanation: x") 0)
                    (with_pages (sample_args false) (Some [])) empty_world));
      reflexivity.
  - apply (proj2 (run_without_notes_column
                    (sample_ext 0 (txt "Explanation: x") 0)
                    (with_margin (sample_args false) 0) empty_world)).
    + vm_compute. discriminate.
    + repeat constructor; vm_compute; discriminate.
Defined.
